(** * The Anthropic client of langchaingo: transport, headers, error decoding

    A shallow embedding of [llms/anthropic/internal/anthropicclient/anthropicclient.go]
    and of the [llms.LLMError] value it returns.

    - Go strings are byte strings: [string].  A [[]byte] is a [list byte].
    - [int] holds an HTTP status code and is never computed with: [Z].
    - [http.Header] is a [gmap] from canonical keys to value lists.
    - A method on [*Client] runs in a small state monad over the receiver
      and the sequence of requests handed to the transport so far.
    - [encoding/json], [net/textproto] and [fmt] are embedded as far as the
      client uses them. *)

From stdpp Require Import gmap strings list fin_maps pretty.
From Stdlib Require Import ZArith Ascii String.
From Stdlib.Strings Require Import Byte.


(** ** Bytes and characters *)

Definition code (c : ascii) : N := N_of_ascii c.

Definition between (lo hi : N) (c : ascii) : bool :=
  ((lo <=? code c) && (code c <=? hi))%N.

Definition isc (n : N) (c : ascii) : bool := (code c =? n)%N.

Definition chr (n : N) : ascii := ascii_of_N n.

Definition is_digit : ascii -> bool := between 48 57.
Definition is_lower : ascii -> bool := between 97 122.
Definition is_upper : ascii -> bool := between 65 90.

Definition to_upper (c : ascii) : ascii :=
  if is_lower c then chr (code c - 32) else c.
Definition to_lower (c : ascii) : ascii :=
  if is_upper c then chr (code c + 32) else c.

(** [string(b)] and [[]byte(s)]. *)
Definition bytes := list byte.
Definition string_of_bytes (b : bytes) : string := string_of_list_byte b.
Definition bytes_of_string (s : string) : bytes := list_byte_of_string s.

(** A string literal of this file cannot hold the double quote; [q] writes
    one for every apostrophe, so that JSON texts stay readable. *)
Fixpoint q (s : string) : string :=
  match s with
  | EmptyString => EmptyString
  | String c s' => String (if isc 39 c then chr 34 else c) (q s')
  end.

(** ** unicode/utf8, as far as encoding/json calls it *)

Module utf8.

(** U+FFFD, [unicode.ReplacementChar], encoded. *)
Definition RuneError : string :=
  String (chr 239) (String (chr 191) (String (chr 189) EmptyString)).

(** [utf8.AppendRune] for a rune below 0x110000 that is no surrogate. *)
Definition EncodeRune (r : N) : string :=
  let cont (n : N) := chr (N.lor 128 (N.land n 63)) in
  if (r <? 128)%N then String (chr r) EmptyString
  else if (r <? 2048)%N then
    String (chr (N.lor 192 (N.shiftr r 6))) (String (cont r) EmptyString)
  else if (r <? 65536)%N then
    String (chr (N.lor 224 (N.shiftr r 12)))
      (String (cont (N.shiftr r 6)) (String (cont r) EmptyString))
  else
    String (chr (N.lor 240 (N.shiftr r 18)))
      (String (cont (N.shiftr r 12))
         (String (cont (N.shiftr r 6)) (String (cont r) EmptyString))).

(** The bytes that may follow a first byte: how many, and the range of the
    second one ([first] and [acceptRanges] of the Go package).  [None] for a
    byte that starts no sequence. *)
Definition first (c : ascii) : option (nat * N * N) :=
  if between 194 223 c then Some (1%nat, 128%N, 191%N)
  else if isc 224 c then Some (2%nat, 160%N, 191%N)
  else if between 225 236 c then Some (2%nat, 128%N, 191%N)
  else if isc 237 c then Some (2%nat, 128%N, 159%N)
  else if between 238 239 c then Some (2%nat, 128%N, 191%N)
  else if isc 240 c then Some (3%nat, 144%N, 191%N)
  else if between 241 243 c then Some (3%nat, 128%N, 191%N)
  else if isc 244 c then Some (3%nat, 128%N, 143%N)
  else None.

Fixpoint continuation (n : nat) (s : string) : bool :=
  match n, s with
  | O, _ => true
  | S n', String c s' => between 128 191 c && continuation n' s'
  | S _, EmptyString => false
  end.

(** [DecodeRune] on [c] followed by [rest], for [c >= 0x80]: [Some k] when
    [c] and the next [k] bytes encode one rune, [None] when the decoder
    answers [RuneError] of width 1. *)
Definition tail_len (c : ascii) (rest : string) : option nat :=
  match first c with
  | None => None
  | Some (k, lo, hi) =>
      match rest with
      | String c1 rest1 =>
          if between lo hi c1 && continuation (Nat.pred k) rest1
          then Some k else None
      | EmptyString => None
      end
  end.

End utf8.

(** ** encoding/json: the scanner, the literal decoder, the decoding of an
    object into a struct *)

Module json.

Local Unset Elimination Schemes.
Inductive value :=
| Null
| Bool (b : bool)
| Number (lit : string)
| Str (s : string)
| Array (elems : list value)
| Object (members : list (string * value)).
Local Set Elimination Schemes.

(** *** String literals: [unquoteBytes] *)

Definition hex_val (c : ascii) : option N :=
  if is_digit c then Some (code c - 48)%N
  else if between 97 102 c then Some (code c - 87)%N
  else if between 65 70 c then Some (code c - 55)%N
  else None.

(** [getu4], once the backslash and the [u] are seen. *)
Definition hex4 (a b c d : ascii) : option N :=
  match hex_val a, hex_val b, hex_val c, hex_val d with
  | Some x, Some y, Some z, Some w => Some (x * 4096 + y * 256 + z * 16 + w)%N
  | _, _, _, _ => None
  end.

Definition IsSurrogate (r : N) : bool := ((55296 <=? r) && (r <? 57344))%N.

(** [utf16.DecodeRune]; [None] for the replacement character. *)
Definition DecodeRune16 (r1 r2 : N) : option N :=
  if ((55296 <=? r1) && (r1 <? 56320) && (56320 <=? r2) && (r2 <? 57344))%N
  then Some (N.lor (N.shiftl (r1 - 55296) 10) (r2 - 56320) + 65536)%N
  else None.

Definition escaped (c : ascii) : option ascii :=
  if isc 34 c || isc 92 c || isc 47 c then Some c
  else if isc 98 c then Some (chr 8)
  else if isc 102 c then Some (chr 12)
  else if isc 110 c then Some (chr 10)
  else if isc 114 c then Some (chr 13)
  else if isc 116 c then Some (chr 9)
  else None.

(** [copy] bytes are still owed to a UTF-8 sequence that was found
    well-formed; ill-formed bytes become U+FFFD. *)
Fixpoint unquote_from (copy : nat) (s : string) : option string :=
  match s with
  | EmptyString => Some EmptyString
  | String c rest =>
      match copy with
      | S k => String c <$> unquote_from k rest
      | O =>
          if isc 92 c then
            match rest with
            | String e rest1 =>
                if isc 117 e then
                  match rest1 with
                  | String h1 (String h2 (String h3 (String h4 rest2))) =>
                      match hex4 h1 h2 h3 h4 with
                      | None => None
                      | Some rr =>
                          if IsSurrogate rr then
                            match rest2 with
                            | String b' (String u' (String g1 (String g2
                                (String g3 (String g4 rest3))))) =>
                                match (if isc 92 b' && isc 117 u'
                                       then hex4 g1 g2 g3 g4 else None)
                                      ≫= DecodeRune16 rr with
                                | Some dec =>
                                    String.app (utf8.EncodeRune dec)
                                      <$> unquote_from 0 rest3
                                | None =>
                                    String.app utf8.RuneError
                                      <$> unquote_from 0 rest2
                                end
                            | _ => String.app utf8.RuneError
                                     <$> unquote_from 0 rest2
                            end
                          else String.app (utf8.EncodeRune rr)
                                 <$> unquote_from 0 rest2
                      end
                  | _ => None
                  end
                else
                  match escaped e with
                  | Some x => String x <$> unquote_from 0 rest1
                  | None => None
                  end
            | EmptyString => None
            end
          else if (code c <? 128)%N then String c <$> unquote_from 0 rest
          else
            match utf8.tail_len c rest with
            | Some k => String c <$> unquote_from k rest
            | None => String.app utf8.RuneError <$> unquote_from 0 rest
            end
      end
  end.

Definition unquote : string -> option string := unquote_from 0.

(** *** Lexical level *)

Inductive token :=
| TBeginObject | TEndObject | TBeginArray | TEndArray | TColon | TComma
| TString (s : string)       (* the text between the quotes, unquoted *)
| TNumber (lit : string)
| TLiteral (v : value).      (* true, false, null *)

(** The states of the scanner inside a number ([stateNeg], [state0],
    [state1], [stateDot], [stateDot0], [stateE], [stateESign], [stateE0]). *)
Inductive numstate := NNeg | N0 | N1 | NDot | NDot0 | NE | NESign | NE0.

Definition num_step (n : numstate) (c : ascii) : option numstate :=
  let e := isc 101 c || isc 69 c in
  match n with
  | NNeg => if isc 48 c then Some N0 else if between 49 57 c then Some N1 else None
  | N0 => if isc 46 c then Some NDot else if e then Some NE else None
  | N1 => if is_digit c then Some N1
          else if isc 46 c then Some NDot else if e then Some NE else None
  | NDot => if is_digit c then Some NDot0 else None
  | NDot0 => if is_digit c then Some NDot0 else if e then Some NE else None
  | NE => if isc 43 c || isc 45 c then Some NESign
          else if is_digit c then Some NE0 else None
  | NESign => if is_digit c then Some NE0 else None
  | NE0 => if is_digit c then Some NE0 else None
  end.

Definition num_accepts (n : numstate) : bool :=
  match n with N0 | N1 | NDot0 | NE0 => true | _ => false end.

(** Inside a string: plain, after a backslash, or with [n] hexadecimal
    digits of a [\u] escape still to come. *)
Inductive escstate := Plain | Backslash | Hex (n : nat).

Inductive lexstate :=
| LBetween
| LString (acc : list ascii) (e : escstate)
| LNumber (acc : list ascii) (n : numstate)
| LLiteral (rest : list ascii) (v : value).

Definition is_space (c : ascii) : bool :=
  isc 32 c || isc 9 c || isc 13 c || isc 10 c.

Definition is_hex (c : ascii) : bool :=
  is_digit c || between 97 102 c || between 65 70 c.

Definition text (acc : list ascii) : string := string_of_list_ascii (rev acc).

Definition lex_between (c : ascii) : option (list token * lexstate) :=
  if is_space c then Some ([], LBetween)
  else if isc 123 c then Some ([TBeginObject], LBetween)
  else if isc 125 c then Some ([TEndObject], LBetween)
  else if isc 91 c then Some ([TBeginArray], LBetween)
  else if isc 93 c then Some ([TEndArray], LBetween)
  else if isc 58 c then Some ([TColon], LBetween)
  else if isc 44 c then Some ([TComma], LBetween)
  else if isc 34 c then Some ([], LString [] Plain)
  else if isc 45 c then Some ([], LNumber [c] NNeg)
  else if isc 48 c then Some ([], LNumber [c] N0)
  else if between 49 57 c then Some ([], LNumber [c] N1)
  else if isc 116 c then Some ([], LLiteral (list_ascii_of_string "rue") (Bool true))
  else if isc 102 c then Some ([], LLiteral (list_ascii_of_string "alse") (Bool false))
  else if isc 110 c then Some ([], LLiteral (list_ascii_of_string "ull") Null)
  else None.

Definition lex_step (st : lexstate) (c : ascii) : option (list token * lexstate) :=
  match st with
  | LBetween => lex_between c
  | LString acc Plain =>
      if isc 34 c then s ← unquote (text acc); Some ([TString s], LBetween)
      else if isc 92 c then Some ([], LString (c :: acc) Backslash)
      else if (code c <? 32)%N then None
      else Some ([], LString (c :: acc) Plain)
  | LString acc Backslash =>
      if isc 117 c then Some ([], LString (c :: acc) (Hex 4))
      else if isc 34 c || isc 92 c || isc 47 c || isc 98 c || isc 102 c
              || isc 110 c || isc 114 c || isc 116 c
      then Some ([], LString (c :: acc) Plain)
      else None
  | LString acc (Hex n) =>
      if is_hex c then
        Some ([], LString (c :: acc) (match n with S (S k) => Hex (S k) | _ => Plain end))
      else None
  | LNumber acc n =>
      match num_step n c with
      | Some n' => Some ([], LNumber (c :: acc) n')
      | None =>
          if num_accepts n then
            match lex_between c with
            | Some (toks, st') => Some (TNumber (text acc) :: toks, st')
            | None => None
            end
          else None
      end
  | LLiteral rest v =>
      match rest with
      | c' :: rest' =>
          if Ascii.eqb c c' then
            match rest' with
            | [] => Some ([TLiteral v], LBetween)
            | _ => Some ([], LLiteral rest' v)
            end
          else None
      | [] => None
      end
  end.

Definition lex_end (st : lexstate) : option (list token) :=
  match st with
  | LBetween => Some []
  | LNumber acc n => if num_accepts n then Some [TNumber (text acc)] else None
  | _ => None
  end.

Fixpoint lex_from (st : lexstate) (s : string) : option (list token) :=
  match s with
  | EmptyString => lex_end st
  | String c s' =>
      match lex_step st c with
      | Some (toks, st') =>
          match lex_from st' s' with
          | Some rest => Some (toks ++ rest)
          | None => None
          end
      | None => None
      end
  end.

Definition lex : string -> option (list token) := lex_from LBetween.

(** *** Values: the grammar, with the nesting limit of the scanner *)

Definition maxNestingDepth : N := 10000.

Inductive frame :=
| InArray (elems : list value)
| InObject (members : list (string * value)) (key : option string).

Inductive expect :=
| EValue          (* a value: at the start, after a colon, after a comma *)
| EValueOrEnd     (* just after an opening bracket *)
| EKeyOrEnd       (* just after an opening brace *)
| EKey            (* after a comma inside an object *)
| EColon
| ECommaOrEnd     (* after a value inside an array or an object *)
| EDone (v : value).

Definition parser : Type := expect * list frame * N.

(** A finished value goes to the innermost open array or object. *)
Definition place (v : value) (stack : list frame) (depth : N) : option parser :=
  match stack with
  | [] => Some (EDone v, [], depth)
  | InArray es :: st => Some (ECommaOrEnd, InArray (v :: es) :: st, depth)
  | InObject ms (Some k) :: st =>
      Some (ECommaOrEnd, InObject ((k, v) :: ms) None :: st, depth)
  | InObject _ None :: _ => None
  end.

Definition push (f : frame) (e : expect) (stack : list frame) (depth : N)
  : option parser :=
  if (depth + 1 <=? maxNestingDepth)%N then Some (e, f :: stack, (depth + 1)%N)
  else None.

Definition begin_value (t : token) (stack : list frame) (depth : N)
  : option parser :=
  match t with
  | TString s => place (Str s) stack depth
  | TNumber lit => place (Number lit) stack depth
  | TLiteral v => place v stack depth
  | TBeginObject => push (InObject [] None) EKeyOrEnd stack depth
  | TBeginArray => push (InArray []) EValueOrEnd stack depth
  | _ => None
  end.

Definition set_key (k : string) (stack : list frame) (depth : N)
  : option parser :=
  match stack with
  | InObject ms None :: st => Some (EColon, InObject ms (Some k) :: st, depth)
  | _ => None
  end.

Definition end_array (stack : list frame) (depth : N) : option parser :=
  match stack with
  | InArray es :: st => place (Array (rev es)) st (depth - 1)
  | _ => None
  end.

Definition end_object (stack : list frame) (depth : N) : option parser :=
  match stack with
  | InObject ms None :: st => place (Object (rev ms)) st (depth - 1)
  | _ => None
  end.

Definition parse_step (p : parser) (t : token) : option parser :=
  let '(e, stack, depth) := p in
  match e, t with
  | EValue, _ => begin_value t stack depth
  | EValueOrEnd, TEndArray => end_array stack depth
  | EValueOrEnd, _ => begin_value t stack depth
  | EKeyOrEnd, TEndObject => end_object stack depth
  | (EKeyOrEnd | EKey), TString k => set_key k stack depth
  | EColon, TColon => Some (EValue, stack, depth)
  | ECommaOrEnd, TComma =>
      match stack with
      | InArray _ :: _ => Some (EValue, stack, depth)
      | InObject _ None :: _ => Some (EKey, stack, depth)
      | _ => None
      end
  | ECommaOrEnd, TEndArray => end_array stack depth
  | ECommaOrEnd, TEndObject => end_object stack depth
  | _, _ => None
  end.

Fixpoint parse_tokens (p : parser) (ts : list token) : option value :=
  match ts with
  | [] => match p with (EDone v, [], _) => Some v | _ => None end
  | t :: ts' => parse_step p t ≫= λ p', parse_tokens p' ts'
  end.

(** The whole input is one value, or it is a syntax error ([checkValid]). *)
Definition parse (data : bytes) : option value :=
  lex (string_of_bytes data) ≫= parse_tokens (EValue, [], 0%N).

(** *** Field names: [foldName]

    A key selects a struct field when it is the field's name, or when both
    have the same folded name.  Folding maps every rune to the least rune of
    its case orbit: an ASCII letter to its capital, U+017F to [S], U+212A to
    [K]; no other rune folds to an ASCII one, so against the ASCII names of
    the structs below the remaining runes can stay as they are. *)
Fixpoint starts (p : list N) (s : string) : bool :=
  match p, s with
  | [], _ => true
  | n :: p', String c s' => isc n c && starts p' s'
  | _ :: _, EmptyString => false
  end.

Fixpoint foldName_from (skip : nat) (s : string) : string :=
  match s with
  | EmptyString => EmptyString
  | String a s' =>
      match skip with
      | S k => foldName_from k s'
      | O =>
          if starts [226; 132; 170]%N s then String (chr 75) (foldName_from 2 s')
          else if starts [197; 191]%N s then String (chr 83) (foldName_from 1 s')
          else String (to_upper a) (foldName_from 0 s')
      end
  end.

Definition foldName : string -> string := foldName_from 0.

Definition names (field key : string) : bool :=
  String.eqb key field || String.eqb (foldName key) (foldName field).

End json.

(** ** Types the client passes through and never looks into *)

Class GoTypes := {
  float64 : Type;                  (* sampling parameters *)
  ChatMessage : Type;              (* declared in another file *)
  StreamingFunc : Type;            (* func(ctx, chunk []byte) error, or nil *)
  MessageResponsePayload : Type;   (* declared in another file *)
  schema : Type;                   (* the [any] of a tool's parameters *)
  other : Type;                    (* values of the remaining dynamic types *)
}.

(** ** package llms *)

Module llms.

Record LLMError := {
  Message : string;
  ErrorMessage : string;
  StatusCode : Z;
  ErrorType : string;
  RawResponse : bytes;
}.

(** [func (e *LLMError) Error() string]. *)
Definition Error (e : LLMError) : string := Message e.

(** Modelled from the spec: the declarations of [llms.Tool] and
    [llms.FunctionDefinition] are not among the sources.  A tool carries a
    type tag and a function definition that may be absent (a nil pointer);
    a definition is a name, a description and a parameter schema passed
    through as it is, the fields [handleTools] reads. *)
Record FunctionDefinition `{GoTypes} := {
  Name : string;
  Description : string;
  Parameters : schema;
}.

Record Tool `{GoTypes} := {
  Type' : string;
  Function : option FunctionDefinition;
}.

End llms.

(** ** Go's [error] values, as far as the client makes or passes them *)

Inductive error :=
| errors_New (text : string)
| Errorf_w (context : string) (err : error)   (* fmt.Errorf("<context>: %w", err) *)
| LLMError_ptr (e : llms.LLMError).           (* &llms.LLMError{...} *)

(** The method [Error()]. *)
Fixpoint error_text (e : error) : string :=
  match e with
  | errors_New text => text
  | Errorf_w context err => context +:+ ": " +:+ error_text err
  | LLMError_ptr e => llms.Error e
  end.

(** The verb [%d] of fmt on an [int]. *)
Definition fmt_d (n : Z) : string := pretty n.

(** ** net/textproto and net/http *)

Module http.

(** [validHeaderFieldByte]: the token characters of RFC 7230. *)
Definition validHeaderFieldByte (c : ascii) : bool :=
  is_digit c || is_lower c || is_upper c
  || existsb (λ n, isc n c)
       [33; 35; 36; 37; 38; 39; 42; 43; 45; 46; 94; 95; 96; 124; 126]%N.

Fixpoint all_valid (s : string) : bool :=
  match s with
  | EmptyString => true
  | String c s' => validHeaderFieldByte c && all_valid s'
  end.

(** The first letter and every letter after a hyphen in upper case, the
    other letters in lower case. *)
Fixpoint canonical (upper : bool) (s : string) : string :=
  match s with
  | EmptyString => EmptyString
  | String c s' =>
      let c' := if upper then to_upper c else to_lower c in
      String c' (canonical (isc 45 c') s')
  end.

(** A key with a byte that no header name may hold is left as it is. *)
Definition CanonicalMIMEHeaderKey (s : string) : string :=
  if all_valid s then canonical true s else s.

(** [textproto.MIMEHeader], the type under [http.Header]. *)
Abbreviation MIMEHeader := (gmap string (list string)).

Definition Set_ (h : MIMEHeader) (key value : string) : MIMEHeader :=
  <[CanonicalMIMEHeaderKey key := [value]]> h.

Definition Get (h : MIMEHeader) (key : string) : string :=
  match h !! CanonicalMIMEHeaderKey key with
  | Some (v :: _) => v
  | _ => EmptyString
  end.

Definition MethodPost : string := "POST".

Record Request := {
  Method : string;
  URL : string;
  Header : MIMEHeader;
  Body : bytes;
}.

(** What [io.ReadAll] gets out of a body: the bytes, and the error that
    ended the reading if one did. *)
Record ReadCloser := {
  data : bytes;
  failure : option error;
}.

Definition ReadAll (r : ReadCloser) : bytes * option error := (data r, failure r).

Record Response := {
  StatusCode : Z;
  RespBody : ReadCloser;
}.

Section NewRequest.
(** [url.Parse], by the error it answers for a URL it refuses. *)
Variable url_Parse : string -> option error.

(** [http.NewRequestWithContext] under a context that is not nil and for
    a method that is a valid token: only the URL can be refused. *)
Definition NewRequestWithContext (method url : string) (body : bytes)
  : option Request * option error :=
  match url_Parse url with
  | Some err => (None, Some err)
  | None =>
      (Some {| Method := method; URL := url; Header := ∅; Body := body |}, None)
  end.
End NewRequest.

End http.

(** ** package anthropicclient *)

Module anthropicclient.

Definition DefaultBaseURL : string := "https://api.anthropic.com/v1".
Definition DefaultAnthropicVersion : string := "2023-06-01".
Definition defaultModel : string := "claude-1.3".

Definition ErrEmptyResponse : error := errors_New "empty response".

(** [Doer]: a transport answers a request, possibly by what it was sent
    before.  An implementation may return any pair. *)
Definition Doer : Type :=
  list http.Request -> http.Request -> option http.Response * option error.

(** [httpClient] is an interface value and may be nil. *)
Record Client := {
  token : string;
  Model : string;
  baseURL : string;
  vertexProjectID : string;
  vertexLocation : string;
  httpClient : option Doer;
  anthropicVersion : string;
  UseLegacyTextCompletionsAPI : bool;
}.

Definition set_baseURL (v : string) (c : Client) : Client :=
  {| token := token c; Model := Model c; baseURL := v;
     vertexProjectID := vertexProjectID c; vertexLocation := vertexLocation c;
     httpClient := httpClient c; anthropicVersion := anthropicVersion c;
     UseLegacyTextCompletionsAPI := UseLegacyTextCompletionsAPI c |}.

Definition set_vertexProjectID (v : string) (c : Client) : Client :=
  {| token := token c; Model := Model c; baseURL := baseURL c;
     vertexProjectID := v; vertexLocation := vertexLocation c;
     httpClient := httpClient c; anthropicVersion := anthropicVersion c;
     UseLegacyTextCompletionsAPI := UseLegacyTextCompletionsAPI c |}.

Definition set_vertexLocation (v : string) (c : Client) : Client :=
  {| token := token c; Model := Model c; baseURL := baseURL c;
     vertexProjectID := vertexProjectID c; vertexLocation := v;
     httpClient := httpClient c; anthropicVersion := anthropicVersion c;
     UseLegacyTextCompletionsAPI := UseLegacyTextCompletionsAPI c |}.

Definition set_anthropicVersion (v : string) (c : Client) : Client :=
  {| token := token c; Model := Model c; baseURL := baseURL c;
     vertexProjectID := vertexProjectID c; vertexLocation := vertexLocation c;
     httpClient := httpClient c; anthropicVersion := v;
     UseLegacyTextCompletionsAPI := UseLegacyTextCompletionsAPI c |}.

Definition set_httpClient (v : option Doer) (c : Client) : Client :=
  {| token := token c; Model := Model c; baseURL := baseURL c;
     vertexProjectID := vertexProjectID c; vertexLocation := vertexLocation c;
     httpClient := v; anthropicVersion := anthropicVersion c;
     UseLegacyTextCompletionsAPI := UseLegacyTextCompletionsAPI c |}.

Definition set_UseLegacyTextCompletionsAPI (v : bool) (c : Client) : Client :=
  {| token := token c; Model := Model c; baseURL := baseURL c;
     vertexProjectID := vertexProjectID c; vertexLocation := vertexLocation c;
     httpClient := httpClient c; anthropicVersion := anthropicVersion c;
     UseLegacyTextCompletionsAPI := v |}.

(** [Option]: a function on [*Client] that may fail. *)
Definition Option : Type := Client -> Client * option error.

Definition WithVertexProjectID (projectID : string) : Option :=
  λ c, (set_vertexProjectID projectID c, None).
Definition WithVertexLocation (location : string) : Option :=
  λ c, (set_vertexLocation location c, None).
Definition WithAnthropicVersion (version : string) : Option :=
  λ c, (set_anthropicVersion version c, None).
Definition WithHTTPClient (client : option Doer) : Option :=
  λ c, (set_httpClient client c, None).
Definition WithLegacyTextCompletionsAPI (val : bool) : Option :=
  λ c, (set_UseLegacyTextCompletionsAPI val c, None).

(** [strings.TrimSuffix]. *)
Fixpoint TrimSuffix (s suffix : string) : string :=
  match s with
  | EmptyString => EmptyString
  | String c s' =>
      if String.eqb s suffix then EmptyString else String c (TrimSuffix s' suffix)
  end.

Fixpoint apply_opts (opts : list Option) (c : Client) : option Client * option error :=
  match opts with
  | [] => (Some c, None)
  | opt :: opts' =>
      match opt c with
      | (_, Some err) => (None, Some err)
      | (c', None) => apply_opts opts' c'
      end
  end.

Definition New (token model baseURL : string) (opts : list Option)
  : option Client * option error :=
  apply_opts opts
    {| token := token; Model := model; baseURL := TrimSuffix baseURL "/";
       vertexProjectID := ""; vertexLocation := ""; httpClient := None;
       anthropicVersion := ""; UseLegacyTextCompletionsAPI := false |}.

(** *** Methods on [*Client]

    A method reads and writes the receiver [this] and hands requests to the
    transport; [wire] records them in order.  A call on a nil interface or a
    nil pointer panics. *)

Record state := {
  this : Client;
  wire : list http.Request;
}.

Inductive outcome (A : Type) :=
| Returns (a : A)
| Panics.
Arguments Returns {A} a.
Arguments Panics {A}.

Definition M (A : Type) : Type := state -> outcome A * state.

#[export] Instance M_ret : MRet M := λ A a s, (Returns a, s).
#[export] Instance M_bind : MBind M := λ A B f m s,
  match m s with
  | (Returns a, s') => f a s'
  | (Panics, s') => (Panics, s')
  end.

Definition receiver : M Client := λ s, (Returns (this s), s).
Definition assign (f : Client -> Client) : M unit :=
  λ s, (Returns tt, {| this := f (this s); wire := wire s |}).
Definition panic {A : Type} : M A := λ s, (Panics, s).

(** [c.httpClient.Do(req)]. *)
Definition httpClient_Do (req : http.Request)
  : M (option http.Response * option error) :=
  λ s, match httpClient (this s) with
       | None => (Panics, s)
       | Some doer =>
           (Returns (doer (wire s) req),
            {| this := this s; wire := wire s ++ [req] |})
       end.

(** [setHeaders] reads the receiver and writes the header map of [req],
    which a request from [NewRequestWithContext] always has. *)
Definition setHeaders (c : Client) (req : http.Request) : http.Request :=
  let h := http.Set_ (http.Header req) "Content-Type" "application/json" in
  let h :=
    if negb (String.eqb (vertexProjectID c) "")
    then http.Set_ h "Authorization" ("Bearer " +:+ token c)
    else http.Set_ h "x-api-key" (token c) in
  let h :=
    if negb (String.eqb (anthropicVersion c) "")
    then http.Set_ h "anthropic-version" (anthropicVersion c)
    else
      if negb (String.eqb (vertexProjectID c) "")
      then http.Set_ h "anthropic-version" "vertex-2023-10-16"
      else http.Set_ h "anthropic-version" "2023-06-01" in
  {| http.Method := http.Method req; http.URL := http.URL req;
     http.Header := h; http.Body := http.Body req |}.

(** The first statement of [do] (lines 250 to 262): the computation of
    [url], with the default that it stores in the receiver. *)
Definition do_url (path : string) : M string :=
  c ← receiver;
  if String.eqb (vertexProjectID c) "" then
    _ ← (if String.eqb (baseURL c) ""
         then assign (set_baseURL DefaultBaseURL) else mret tt);
    c ← receiver;
    mret (baseURL c +:+ path)
  else
    mret ("https://" +:+ vertexLocation c +:+ "-aiplatform.googleapis."
          +:+ "com/v1/projects/" +:+ vertexProjectID c +:+ "/locations/"
          +:+ vertexLocation c +:+ "/publishers/anthropic/models/"
          +:+ Model c +:+ ":streamRawPredict").

Section Transport.
Variable url_Parse : string -> option error.

Definition do (path : string) (payloadBytes : bytes)
  : M (option http.Response * option error) :=
  url ← do_url path;
  match http.NewRequestWithContext url_Parse http.MethodPost url payloadBytes with
  | (_, Some err) => mret (None, Some (Errorf_w "create request" err))
  | (None, None) => panic
  | (Some req, None) =>
      c ← receiver;
      '(resp, err) ← httpClient_Do (setHeaders c req);
      match err with
      | Some err => mret (None, Some (Errorf_w "send request" err))
      | None => mret (resp, None)
      end
  end.

(** Calls one after the other on the same client. *)
Fixpoint do_each (calls : list (string * bytes)) : M unit :=
  match calls with
  | [] => mret tt
  | (path, payloadBytes) :: calls' =>
      _ ← do path payloadBytes; do_each calls'
  end.
End Transport.

(** *** The error envelope *)

Record errorMessage_Error := {
  Message : string;
  Type' : string;
}.

Record errorMessage := {
  Error : errorMessage_Error;
}.

(** [var errResp errorMessage]. *)
Definition errorMessage_zero : errorMessage :=
  {| Error := {| Message := ""; Type' := "" |} |}.

(** A string field takes a JSON string, keeps its value on [null], and
    refuses the rest ([UnmarshalTypeError]). *)
Definition store_string (v : json.value) (old : string) : option string :=
  match v with
  | json.Str s => Some s
  | json.Null => Some old
  | _ => None
  end.

Fixpoint object_Error (ms : list (string * json.value)) (dst : errorMessage_Error)
  : option errorMessage_Error :=
  match ms with
  | [] => Some dst
  | (k, v) :: ms' =>
      if json.names "message" k then
        s ← store_string v (Message dst);
        object_Error ms' {| Message := s; Type' := Type' dst |}
      else if json.names "type" k then
        s ← store_string v (Type' dst);
        object_Error ms' {| Message := Message dst; Type' := s |}
      else object_Error ms' dst
  end.

Definition value_Error (v : json.value) (dst : errorMessage_Error)
  : option errorMessage_Error :=
  match v with
  | json.Object ms => object_Error ms dst
  | json.Null => Some dst
  | _ => None
  end.

Fixpoint object_errorMessage (ms : list (string * json.value)) (dst : errorMessage)
  : option errorMessage :=
  match ms with
  | [] => Some dst
  | (k, v) :: ms' =>
      if json.names "error" k then
        e ← value_Error v (Error dst);
        object_errorMessage ms' {| Error := e |}
      else object_errorMessage ms' dst
  end.

(** [json.Unmarshal(data, &errResp)] on the zero envelope: [None] when it
    answers an error (of syntax or of type), else the envelope it leaves. *)
Definition Unmarshal (data : bytes) : option errorMessage :=
  v ← json.parse data;
  match v with
  | json.Object ms => object_errorMessage ms errorMessage_zero
  | json.Null => Some errorMessage_zero
  | _ => None
  end.

(** The receiver is not used. *)
Definition decodeError (resp : http.Response) : error :=
  let msg := "API returned unexpected status code: "
             +:+ fmt_d (http.StatusCode resp) in
  let '(respBody, err) := http.ReadAll (http.RespBody resp) in
  match err with
  | Some err => Errorf_w msg err
  | None =>
      match Unmarshal respBody with
      | None => errors_New msg
      | Some errResp =>
          LLMError_ptr
            {| llms.Message := msg +:+ ": " +:+ Message (Error errResp);
               llms.StatusCode := http.StatusCode resp;
               llms.ErrorType := Type' (Error errResp);
               llms.ErrorMessage := Message (Error errResp);
               llms.RawResponse := respBody |}
      end
  end.

(** *** Requests for the messages API *)

Module Tool.
(** Modelled from the spec: the declaration of [Tool] of this package is not
    among the sources.  A tool definition is a name, a description and a
    parameter schema, the fields that [handleTools] sets. *)
Record t `{GoTypes} := {
  Name : string;
  Description : string;
  InputSchema : schema;
}.
End Tool.

Module ToolChoice.
(** Modelled from the spec: the declaration of [ToolChoice] is not among the
    sources.  A tool choice is a type tag and, for a named tool, the name of
    the tool, the fields that [handleToolChoice] sets. *)
Record t := {
  Type' : string;
  Name : string;
}.
End ToolChoice.

(** An [any] by its dynamic type: nil, a string, an [llms.Tool], a pointer
    to one (possibly nil), or a value of some other type. *)
Inductive any `{GoTypes} :=
| any_nil
| any_string (s : string)
| any_Tool (t : llms.Tool)
| any_ptr_Tool (p : option llms.Tool)
| any_other (v : other).

Module MessageRequest.
Record t `{GoTypes} := {
  Model : string;
  Messages : list ChatMessage;
  System : string;
  Temperature : float64;
  MaxTokens : Z;
  TopP : float64;
  TopK : Z;
  Tools : list llms.Tool;
  ToolChoice : any;
  StopWords : list string;
  Stream : bool;
  StreamingFunc_ : StreamingFunc;
}.
End MessageRequest.

Module messagePayload.
(** Modelled from the spec: the declaration of [messagePayload] is not
    among the sources; its fields are those that the literal in
    [CreateMessage] names, with the types of what is stored in them. *)
Record t `{GoTypes} := {
  Model : string;
  Messages : list ChatMessage;
  System : string;
  Temperature : float64;
  MaxTokens : Z;
  StopWords : list string;
  TopP : float64;
  Stream : bool;
  StreamingFunc_ : StreamingFunc;
  TopK : Z;
  Tools : list Tool.t;
  ToolChoice : option ToolChoice.t;
}.

(** Modelled from the spec: the JSON tags of [messagePayload] are not
    among the sources either.  The member for the tool choice is taken to
    be tagged as in [MessageRequest], [tool_choice,omitempty]; under
    [omitempty] encoding/json writes the member of a pointer field only
    when the pointer is not nil. *)
Definition writes_tool_choice `{GoTypes} (p : t) : bool :=
  match ToolChoice p with
  | Some _ => true
  | None => false
  end.
End messagePayload.

Section Messages.
Context `{GoTypes}.

Definition handleToolChoice (toolChoice : any)
  : option ToolChoice.t * option error :=
  match toolChoice with
  | any_string s =>
      (Some {| ToolChoice.Type' := s; ToolChoice.Name := "" |}, None)
  | any_Tool tool =>
      match llms.Function tool with
      | None => (None, Some (errors_New "tool choice function is nil"))
      | Some f =>
          (Some {| ToolChoice.Type' := llms.Type' tool;
                   ToolChoice.Name := llms.Name f |}, None)
      end
  | _ => (None, None)
  end.

(** The loop of [handleTools] from [resultTools] on. *)
Fixpoint handleTools_from (resultTools : list Tool.t) (tools : list llms.Tool)
  : list Tool.t * option error :=
  match tools with
  | [] => (resultTools, None)
  | tool :: tools' =>
      match llms.Function tool with
      | None => ([], Some (errors_New "tool choice function is nil"))
      | Some f =>
          handleTools_from
            (resultTools ++ [{| Tool.Name := llms.Name f;
                                Tool.Description := llms.Description f;
                                Tool.InputSchema := llms.Parameters f |}])
            tools'
      end
  end.

Definition handleTools : list llms.Tool -> list Tool.t * option error :=
  handleTools_from [].

(** [createMessage] is defined in another file of the package: it
    serializes the payload, sends it with [do] and decodes the answer. *)
Variable createMessage :
  messagePayload.t -> M (option MessageResponsePayload * option error).

Definition payload_of (r : MessageRequest.t) (tools : list Tool.t)
    (toolChoice : option ToolChoice.t) : messagePayload.t :=
  {| messagePayload.Model := MessageRequest.Model r;
     messagePayload.Messages := MessageRequest.Messages r;
     messagePayload.System := MessageRequest.System r;
     messagePayload.Temperature := MessageRequest.Temperature r;
     messagePayload.MaxTokens := MessageRequest.MaxTokens r;
     messagePayload.StopWords := MessageRequest.StopWords r;
     messagePayload.TopP := MessageRequest.TopP r;
     messagePayload.Stream := MessageRequest.Stream r;
     messagePayload.StreamingFunc_ := MessageRequest.StreamingFunc_ r;
     messagePayload.TopK := MessageRequest.TopK r;
     messagePayload.Tools := tools;
     messagePayload.ToolChoice := toolChoice |}.

Definition CreateMessage (r : MessageRequest.t)
  : M (option MessageResponsePayload * option error) :=
  match handleToolChoice (MessageRequest.ToolChoice r) with
  | (_, Some err) => mret (None, Some err)
  | (toolChoice, None) =>
      match handleTools (MessageRequest.Tools r) with
      | (_, Some err) => mret (None, Some err)
      | (tools, None) =>
          '(resp, err) ← createMessage (payload_of r tools toolChoice);
          match err with
          | Some err => mret (None, Some err)
          | None => mret (resp, None)
          end
      end
  end.
End Messages.

(** *** Requests for the legacy completions API *)

Module CompletionRequest.
Record t `{GoTypes} := {
  Model : string;
  Prompt : string;
  Temperature : float64;
  MaxTokens : Z;
  StopWords : list string;
  TopP : float64;
  Stream : bool;
  StreamingFunc_ : StreamingFunc;
}.
End CompletionRequest.

Record Completion := {
  Text : string;
}.

Module completionPayload.
(** Modelled from the spec: the declaration of [completionPayload] is not
    among the sources; its fields are those that the literal in
    [CreateCompletion] names, with the types of what is stored in them. *)
Record t `{GoTypes} := {
  Model : string;
  Prompt : string;
  Temperature : float64;
  MaxTokens : Z;
  StopWords : list string;
  TopP : float64;
  Stream : bool;
  StreamingFunc_ : StreamingFunc;
}.
End completionPayload.

Module completionResponsePayload.
(** Modelled from the spec: the declaration of the response of
    [createCompletion] is not among the sources; [CreateCompletion] reads its
    field [Completion], the finished text. *)
Record t := {
  Completion : string;
}.
End completionResponsePayload.

Section Completions.
Context `{GoTypes}.

(** [createCompletion] is defined in another file of the package; as
    [createMessage] does, it answers a pointer to its response and an
    error. *)
Variable createCompletion :
  completionPayload.t -> M (option completionResponsePayload.t * option error).

(** The literal [&completionPayload{...}] of [CreateCompletion]. *)
Definition completionPayload_of (r : CompletionRequest.t) : completionPayload.t :=
  {| completionPayload.Model := CompletionRequest.Model r;
     completionPayload.Prompt := CompletionRequest.Prompt r;
     completionPayload.Temperature := CompletionRequest.Temperature r;
     completionPayload.MaxTokens := CompletionRequest.MaxTokens r;
     completionPayload.StopWords := CompletionRequest.StopWords r;
     completionPayload.TopP := CompletionRequest.TopP r;
     completionPayload.Stream := CompletionRequest.Stream r;
     completionPayload.StreamingFunc_ := CompletionRequest.StreamingFunc_ r |}.

Definition CreateCompletion (r : CompletionRequest.t)
  : M (option Completion * option error) :=
  '(resp, err) ← createCompletion (completionPayload_of r);
  match err with
  | Some err => mret (None, Some err)
  | None =>
      match resp with
      | None => panic
      | Some resp =>
          mret (Some {| Text := completionResponsePayload.Completion resp |}, None)
      end
  end.
End Completions.

End anthropicclient.

Import anthropicclient.

(** ** Sample values *)

(** A response whose body is read without failure. *)
Definition response (status : Z) (body : string) : http.Response :=
  {| http.StatusCode := status;
     http.RespBody := {| http.data := bytes_of_string body; http.failure := None |} |}.

Definition rate_limited : string :=
  q "{'error':{'message':'rate limited','type':'rate_limit_error'}}".

(** The text of an envelope around a message and a type that need no
    escaping: ASCII without control characters, quotes and backslashes. *)
Definition plain (c : ascii) : bool :=
  (32 <=? code c)%N && (code c <? 128)%N && negb (isc 34 c) && negb (isc 92 c).

Fixpoint all_plain (s : string) : bool :=
  match s with
  | EmptyString => true
  | String c s' => plain c && all_plain s'
  end.

Definition envelope (message type : string) : string :=
  q "{'error':{'message':'" +:+ message +:+ q "','type':'" +:+ type +:+ q "'}}".

(** A transport that refuses every connection, and a URL parser that
    accepts every URL. *)
Definition refusing : Doer :=
  λ _ _, (None, Some (errors_New "connection refused")).

Definition any_url : string -> option error := λ _, None.

Definition direct_client : Client :=
  {| token := "sk-test"; Model := "claude-3-haiku-20240307"; baseURL := "";
     vertexProjectID := ""; vertexLocation := ""; httpClient := Some refusing;
     anthropicVersion := ""; UseLegacyTextCompletionsAPI := false |}.

Definition vertex_client : Client :=
  {| token := "ya29.test"; Model := "claude-3-haiku@20240307";
     baseURL := "https://api.anthropic.com/v1";
     vertexProjectID := "my-project"; vertexLocation := "us-central1";
     httpClient := Some refusing;
     anthropicVersion := ""; UseLegacyTextCompletionsAPI := false |}.

(** What one call of [do] leaves in the receiver, and the URL it computes. *)
Definition defaulted (c : Client) : Client :=
  if String.eqb (vertexProjectID c) "" && String.eqb (baseURL c) ""
  then set_baseURL DefaultBaseURL c else c.

Definition vertex_url (c : Client) : string :=
  "https://" +:+ vertexLocation c
  +:+ "-aiplatform.googleapis.com/v1/projects/" +:+ vertexProjectID c
  +:+ "/locations/" +:+ vertexLocation c
  +:+ "/publishers/anthropic/models/" +:+ Model c +:+ ":streamRawPredict".

Definition target (c : Client) (path : string) : string :=
  if String.eqb (vertexProjectID c) "" then baseURL (defaulted c) +:+ path
  else vertex_url c.

(** The request that [do] hands to the transport. *)
Definition request_of (c : Client) (path : string) (payloadBytes : bytes)
  : http.Request :=
  setHeaders (defaulted c)
    {| http.Method := http.MethodPost; http.URL := target c path;
       http.Header := ∅; http.Body := payloadBytes |}.

(** Types and values for the messages API. *)
#[local] Instance simple_types : GoTypes :=
  {| float64 := unit; ChatMessage := string; StreamingFunc := unit;
     MessageResponsePayload := string; schema := string; other := Z |}.

(** A stand-in for [createMessage] that sends one request. *)
Definition sending (p : @messagePayload.t simple_types)
  : M (option string * option error) :=
  '(_, err) ← do any_url "/messages" [];
  mret (match err with Some _ => None | None => Some "ok" end, err).

Definition weather : @llms.Tool simple_types :=
  {| llms.Type' := "function";
     llms.Function := Some {| llms.Name := "get_weather";
                              llms.Description := "the weather of a city";
                              llms.Parameters := "{}" |} |}.

Definition hollow : @llms.Tool simple_types :=
  {| llms.Type' := "function"; llms.Function := None |}.

Definition request (tools : list (@llms.Tool simple_types))
    (toolChoice : @any simple_types) : @MessageRequest.t simple_types :=
  {| MessageRequest.Model := "claude-3-haiku-20240307";
     MessageRequest.Messages := ["hello"];
     MessageRequest.System := "";
     MessageRequest.Temperature := tt;
     MessageRequest.MaxTokens := 10%Z;
     MessageRequest.TopP := tt;
     MessageRequest.TopK := 0%Z;
     MessageRequest.Tools := tools;
     MessageRequest.ToolChoice := toolChoice;
     MessageRequest.StopWords := [];
     MessageRequest.Stream := false;
     MessageRequest.StreamingFunc_ := tt |}.

(** ** Notions for the further properties *)

(** [errors.Unwrap]: what a [%w] wraps; the other errors wrap nothing. *)
Definition Unwrap (e : error) : option error :=
  match e with
  | Errorf_w _ err => Some err
  | _ => None
  end.

(** The options that the package itself provides. *)
Inductive provided : Option -> Prop :=
| provided_VertexProjectID (projectID : string) :
    provided (WithVertexProjectID projectID)
| provided_VertexLocation (location : string) :
    provided (WithVertexLocation location)
| provided_AnthropicVersion (version : string) :
    provided (WithAnthropicVersion version)
| provided_HTTPClient (client : option Doer) :
    provided (WithHTTPClient client)
| provided_LegacyTextCompletionsAPI (val : bool) :
    provided (WithLegacyTextCompletionsAPI val).



(** A client without a transport. *)
Definition bare_client : Client :=
  {| token := "sk-test"; Model := "claude-3-haiku-20240307";
     baseURL := "https://example.test/v1";
     vertexProjectID := ""; vertexLocation := ""; httpClient := None;
     anthropicVersion := "2023-01-01"; UseLegacyTextCompletionsAPI := false |}.

(** A response whose body cannot be read. *)
Definition unreadable (status : Z) : http.Response :=
  {| http.StatusCode := status;
     http.RespBody := {| http.data := bytes_of_string "{";
                         http.failure := Some (errors_New "unexpected EOF") |} |}.

(** The body of the loop of [handleTools]: one tool translated, if it has a
    function. *)
Definition translate `{GoTypes} (tool : llms.Tool) : option Tool.t :=
  f ← llms.Function tool;
  Some {| Tool.Name := llms.Name f;
          Tool.Description := llms.Description f;
          Tool.InputSchema := llms.Parameters f |}.

(** The sample tool, translated. *)
Definition weather_tool : @Tool.t simple_types :=
  {| Tool.Name := "get_weather";
     Tool.Description := "the weather of a city";
     Tool.InputSchema := "{}" |}.

(** A stand-in for [createCompletion] that answers a text. *)
Definition completing (p : @completionPayload.t simple_types)
  : M (option completionResponsePayload.t * option error) :=
  mret (Some {| completionResponsePayload.Completion :=
                  "echo: " +:+ completionPayload.Prompt p |}, None).

Definition completion_request : @CompletionRequest.t simple_types :=
  {| CompletionRequest.Model := "claude-1.3";
     CompletionRequest.Prompt := "hello";
     CompletionRequest.Temperature := tt;
     CompletionRequest.MaxTokens := 10%Z;
     CompletionRequest.StopWords := [];
     CompletionRequest.TopP := tt;
     CompletionRequest.Stream := false;
     CompletionRequest.StreamingFunc_ := tt |}.

(** * Properties *)

(** ** Decoding of failures *)

Lemma Unmarshal_syntax (body : bytes) :
  json.parse body = None -> Unmarshal body = None.
Proof. intros Hparse. unfold Unmarshal. now rewrite Hparse. Qed.

(** A body that is exactly the envelope, whatever surrounds its tokens. *)
Lemma Unmarshal_envelope (body : bytes) (message type : string) :
  json.parse body
    = Some (json.Object
              [("error", json.Object [("message", json.Str message);
                                      ("type", json.Str type)])]) ->
  Unmarshal body = Some {| Error := {| Message := message; Type' := type |} |}.
Proof. intros Hparse. unfold Unmarshal. now rewrite Hparse. Qed.

(** *** The scanner on an envelope *)

Lemma append_cons (c : ascii) (s t : string) :
  String c s +:+ t = String c (s +:+ t).
Proof. reflexivity. Qed.

Lemma append_nil (t : string) : "" +:+ t = t.
Proof. reflexivity. Qed.

Lemma append_empty (s : string) : s +:+ "" = s.
Proof.
  induction s as [| c s IH]; [reflexivity |].
  rewrite append_cons. now rewrite IH.
Qed.

Lemma lex_from_cons (st : json.lexstate) (c : ascii) (s : string) :
  json.lex_from st (String c s)
  = '(toks, st') ← json.lex_step st c;
    app toks <$> json.lex_from st' s.
Proof.
  cbn [json.lex_from].
  destruct (json.lex_step st c) as [[toks st'] |]; [| reflexivity].
  cbn. now destruct (json.lex_from st' s).
Qed.

Lemma text_cons (c : ascii) (acc : list ascii) (m : string) :
  json.text (c :: acc) +:+ m = json.text acc +:+ String c m.
Proof.
  unfold json.text. cbn [rev].
  generalize (rev acc) as l. induction l as [| a l IH]; [reflexivity |].
  change (String a (string_of_list_ascii (l ++ [c]) +:+ m)
          = String a (string_of_list_ascii l +:+ String c m)).
  now rewrite IH.
Qed.

Lemma plain_inv (c : ascii) :
  plain c = true ->
  (code c <? 32)%N = false /\ (code c <? 128)%N = true /\
  isc 34 c = false /\ isc 92 c = false.
Proof.
  unfold plain. rewrite !andb_true_iff, !negb_true_iff.
  intros [[[Hlo Hhi] Hq] Hb]. repeat split; try assumption.
  apply N.ltb_ge. now apply N.leb_le.
Qed.

Lemma unquote_plain (m : string) :
  all_plain m = true -> json.unquote m = Some m.
Proof.
  unfold json.unquote. induction m as [| c m IH]; intros Hplain; [reflexivity |].
  cbn in Hplain. apply andb_true_iff in Hplain as [Hc Hm].
  destruct (plain_inv c Hc) as (_ & Hhi & _ & Hb).
  cbn [json.unquote_from]. now rewrite Hb, Hhi, IH.
Qed.

(** Inside a string, plain characters are gathered up to the closing quote. *)
Lemma lex_plain_string (m : string) (acc : list ascii) (rest : string) :
  all_plain m = true ->
  json.lex_from (json.LString acc json.Plain) (m +:+ String (chr 34) rest)
  = s ← json.unquote (json.text acc +:+ m);
    cons (json.TString s) <$> json.lex_from json.LBetween rest.
Proof.
  revert acc. induction m as [| c m IH]; intros acc Hplain.
  - rewrite append_empty, append_nil, lex_from_cons.
    change (json.lex_step (json.LString acc json.Plain) (chr 34))
      with (s ← json.unquote (json.text acc); Some ([json.TString s], json.LBetween)).
    now destruct (json.unquote (json.text acc)).
  - cbn in Hplain. apply andb_true_iff in Hplain as [Hc Hm].
    destruct (plain_inv c Hc) as (Hlo & _ & Hq & Hb).
    rewrite append_cons, lex_from_cons. unfold json.lex_step.
    rewrite Hq, Hb, Hlo. cbn [mbind option_bind].
    rewrite IH by assumption. rewrite text_cons.
    destruct (json.unquote _); [cbn | reflexivity].
    now destruct (json.lex_from json.LBetween rest).
Qed.

Ltac run_q :=
  repeat match goal with
  | |- context [q ?s] =>
      let p := eval vm_compute in (q s) in change (q s) with p
  end.

Ltac lex_char :=
  rewrite lex_from_cons;
  match goal with
  | |- context [json.lex_step ?st ?c] =>
      let r := eval vm_compute in (json.lex_step st c) in
      change (json.lex_step st c) with r
  end;
  cbn [mbind option_bind].

Lemma lex_envelope (message type : string) :
  all_plain message = true -> all_plain type = true ->
  json.lex (envelope message type)
  = Some [json.TBeginObject; json.TString "error"; json.TColon;
          json.TBeginObject; json.TString "message"; json.TColon;
          json.TString message; json.TComma; json.TString "type"; json.TColon;
          json.TString type; json.TEndObject; json.TEndObject].
Proof.
  intros Hm Ht. unfold envelope, json.lex.
  change (q "{'error':{'message':'" +:+ message +:+ q "','type':'" +:+ type
          +:+ q "'}}")
    with (q "{'error':{'message':"
          +:+ String (chr 34)
                (message +:+ String (chr 34)
                   (q ",'type':"
                    +:+ String (chr 34) (type +:+ String (chr 34) "}}")))).
  run_q.
  repeat first [ rewrite lex_plain_string by assumption
               | rewrite append_cons | rewrite append_nil | lex_char ].
  change (json.text []) with "". rewrite ?append_nil.
  rewrite !unquote_plain by assumption.
  reflexivity.
Qed.

(** The envelope around a plain message and type decodes into them. *)
Lemma Unmarshal_envelope_text (message type : string) :
  all_plain message = true -> all_plain type = true ->
  Unmarshal (bytes_of_string (envelope message type))
  = Some {| Error := {| Message := message; Type' := type |} |}.
Proof.
  intros Hm Ht. apply Unmarshal_envelope.
  unfold json.parse, string_of_bytes, bytes_of_string.
  rewrite string_of_list_byte_of_string, lex_envelope by assumption.
  reflexivity.
Qed.

Lemma decodeError_read_failure (resp : http.Response) (body : bytes) (err : error) :
  http.ReadAll (http.RespBody resp) = (body, Some err) ->
  decodeError resp
    = Errorf_w ("API returned unexpected status code: "
                +:+ fmt_d (http.StatusCode resp)) err.
Proof. intros Hread. unfold decodeError. now rewrite Hread. Qed.

Lemma decodeError_Unmarshal_failure (resp : http.Response) (body : bytes) :
  http.ReadAll (http.RespBody resp) = (body, None) ->
  Unmarshal body = None ->
  decodeError resp
    = errors_New ("API returned unexpected status code: "
                  +:+ fmt_d (http.StatusCode resp)).
Proof. intros Hread Hjson. unfold decodeError. now rewrite Hread, Hjson. Qed.

Lemma decodeError_decoded (resp : http.Response) (body : bytes)
    (errResp : errorMessage) :
  http.ReadAll (http.RespBody resp) = (body, None) ->
  Unmarshal body = Some errResp ->
  decodeError resp
    = LLMError_ptr
        {| llms.Message :=
             "API returned unexpected status code: "
             +:+ fmt_d (http.StatusCode resp) +:+ ": "
             +:+ Message (Error errResp);
           llms.StatusCode := http.StatusCode resp;
           llms.ErrorType := Type' (Error errResp);
           llms.ErrorMessage := Message (Error errResp);
           llms.RawResponse := body |}.
Proof. intros Hread Hjson. unfold decodeError. now rewrite Hread, Hjson. Qed.

(** C1, as the code has it: when the body is read and is the envelope
    [{"error":{"message":m,"type":t}}], [decodeError] answers an
    [*llms.LLMError] whose [Message] is
    [API returned unexpected status code: <code>: m], and whose [StatusCode],
    [ErrorType], [ErrorMessage] and [RawResponse] are the status code, [t],
    [m] and the bytes of the body.  More generally, whenever [Unmarshal]
    accepts the body, the two provider fields are those it leaves in the
    envelope. *)
Theorem decodeError_structured (resp : http.Response) (body : bytes) :
  http.ReadAll (http.RespBody resp) = (body, None) ->
  (forall message type : string,
     json.parse body
     = Some (json.Object
               [("error", json.Object [("message", json.Str message);
                                       ("type", json.Str type)])]) ->
     decodeError resp
     = LLMError_ptr
         {| llms.Message :=
              "API returned unexpected status code: "
              +:+ fmt_d (http.StatusCode resp) +:+ ": " +:+ message;
            llms.StatusCode := http.StatusCode resp;
            llms.ErrorType := type;
            llms.ErrorMessage := message;
            llms.RawResponse := body |}) /\
  (forall errResp : errorMessage,
     Unmarshal body = Some errResp ->
     decodeError resp
     = LLMError_ptr
         {| llms.Message :=
              "API returned unexpected status code: "
              +:+ fmt_d (http.StatusCode resp) +:+ ": "
              +:+ Message (Error errResp);
            llms.StatusCode := http.StatusCode resp;
            llms.ErrorType := Type' (Error errResp);
            llms.ErrorMessage := Message (Error errResp);
            llms.RawResponse := body |}).
Proof.
  intros Hread. split.
  - intros message type Hparse.
    apply (decodeError_decoded resp body _ Hread
             (Unmarshal_envelope body message type Hparse)).
  - intros errResp Hjson. now apply decodeError_decoded.
Qed.

Lemma decodeError_structured_witness :
  decodeError (response 429 rate_limited)
    = LLMError_ptr
        {| llms.Message := "API returned unexpected status code: 429: rate limited";
           llms.StatusCode := 429;
           llms.ErrorType := "rate_limit_error";
           llms.ErrorMessage := "rate limited";
           llms.RawResponse := bytes_of_string rate_limited |}.
Proof.
  exact (proj1 (decodeError_structured (response 429 rate_limited)
                  (bytes_of_string rate_limited) eq_refl)
           "rate limited" "rate_limit_error" eq_refl).
Defined.

(** C1, as the spec words it, fails: the composed message of the code begins
    with [API returned], so it is not the string
    [unexpected status code: <code>: <provider message>]. *)
Lemma decodeError_message_prefix :
  ~ (forall (resp : http.Response) (body : bytes) (errResp : errorMessage),
       http.ReadAll (http.RespBody resp) = (body, None) ->
       Unmarshal body = Some errResp ->
       exists e : llms.LLMError,
         decodeError resp = LLMError_ptr e /\
         llms.Message e
           = "unexpected status code: " +:+ fmt_d (http.StatusCode resp)
             +:+ ": " +:+ Message (Error errResp)).
Proof.
  intros Hclaim.
  destruct (Hclaim (response 429 rate_limited) (bytes_of_string rate_limited)
              {| Error := {| Message := "rate limited"; Type' := "rate_limit_error" |} |}
              eq_refl eq_refl) as (e & Hdecoded & Hmessage).
  vm_compute in Hdecoded. injection Hdecoded as <-.
  vm_compute in Hmessage. discriminate Hmessage.
Qed.

(** X5: from text to error and back: for every status code and every
    message and type of printable ASCII without quotes and backslashes, the
    body [{"error":{"message":"<message>","type":"<type>"}}] is decoded into
    the structured error that carries exactly that message and that type. *)
Lemma decodeError_envelope (status : Z) (message type : string) :
  all_plain message = true -> all_plain type = true ->
  decodeError (response status (envelope message type))
  = LLMError_ptr
      {| llms.Message := "API returned unexpected status code: "
                         +:+ fmt_d status +:+ ": " +:+ message;
         llms.StatusCode := status;
         llms.ErrorType := type;
         llms.ErrorMessage := message;
         llms.RawResponse := bytes_of_string (envelope message type) |}.
Proof.
  intros Hm Ht. unfold decodeError.
  change (http.ReadAll (http.RespBody (response status (envelope message type))))
    with (bytes_of_string (envelope message type), @None error).
  cbv beta iota zeta. now rewrite Unmarshal_envelope_text.
Qed.

(** The sample body, byte by byte. *)
Example rate_limited_bytes :
  bytes_of_string rate_limited
  = [x7b; x22; x65; x72; x72; x6f; x72; x22; x3a; x7b; x22; x6d; x65; x73;
     x73; x61; x67; x65; x22; x3a; x22; x72; x61; x74; x65; x20; x6c; x69;
     x6d; x69; x74; x65; x64; x22; x2c; x22; x74; x79; x70; x65; x22; x3a;
     x22; x72; x61; x74; x65; x5f; x6c; x69; x6d; x69; x74; x5f; x65; x72;
     x72; x6f; x72; x22; x7d; x7d]%byte.
Proof. reflexivity. Qed.

(** C5: on status 429 with the body
    [{"error":{"message":"rate limited","type":"rate_limit_error"}}],
    [decodeError] answers an [*llms.LLMError] with [StatusCode] 429,
    [ErrorType] [rate_limit_error], [ErrorMessage] [rate limited] and
    [RawResponse] the bytes of the body. *)
Theorem decodeError_rate_limited :
  exists e : llms.LLMError,
    decodeError (response 429 rate_limited) = LLMError_ptr e /\
    llms.StatusCode e = 429%Z /\
    llms.ErrorType e = "rate_limit_error" /\
    llms.ErrorMessage e = "rate limited" /\
    llms.RawResponse e = bytes_of_string rate_limited.
Proof.
  eexists. split; [vm_compute; reflexivity |].
  repeat split.
Qed.

(** C6, as the code has it: when the body is read and is not JSON,
    [decodeError] answers a plain [errors.New] value whose text is
    [API returned unexpected status code: <code>] and nothing more: no
    [*llms.LLMError], hence no raw body, no provider type and no provider
    message. *)
Theorem decodeError_not_json (resp : http.Response) (body : bytes) :
  http.ReadAll (http.RespBody resp) = (body, None) ->
  json.parse body = None ->
  decodeError resp
    = errors_New ("API returned unexpected status code: "
                  +:+ fmt_d (http.StatusCode resp)) /\
  (forall e : llms.LLMError, decodeError resp <> LLMError_ptr e).
Proof.
  intros Hread Hparse.
  rewrite (decodeError_Unmarshal_failure resp body Hread (Unmarshal_syntax body Hparse)).
  split; [reflexivity | discriminate].
Qed.

Lemma decodeError_not_json_witness :
  decodeError (response 500 "not json")
    = errors_New "API returned unexpected status code: 500" /\
  (forall e : llms.LLMError,
     decodeError (response 500 "not json") <> LLMError_ptr e).
Proof.
  exact (decodeError_not_json (response 500 "not json")
           (bytes_of_string "not json") eq_refl eq_refl).
Defined.

(** C6, as the spec words it, fails: the text of the plain error is not
    [unexpected status code: <code>], it begins with [API returned]. *)
Lemma decodeError_generic_prefix :
  ~ (forall (resp : http.Response) (body : bytes),
       http.ReadAll (http.RespBody resp) = (body, None) ->
       json.parse body = None ->
       error_text (decodeError resp)
         = "unexpected status code: " +:+ fmt_d (http.StatusCode resp)).
Proof.
  intros Hclaim.
  specialize (Hclaim (response 500 "not json") (bytes_of_string "not json")
                eq_refl eq_refl).
  vm_compute in Hclaim. discriminate Hclaim.
Qed.

(** Between the two: JSON that is not the envelope.  An object without an
    [error] member decodes into the zero envelope and gives a structured
    error with empty provider fields; a member of the wrong type makes
    [Unmarshal] fail and gives the plain error. *)
Example decodeError_empty_object :
  decodeError (response 500 "{}")
  = LLMError_ptr
      {| llms.Message := "API returned unexpected status code: 500: ";
         llms.StatusCode := 500;
         llms.ErrorType := "";
         llms.ErrorMessage := "";
         llms.RawResponse := bytes_of_string "{}" |}.
Proof. reflexivity. Qed.

Example decodeError_wrong_type :
  decodeError (response 500 (q "{'error':'overloaded'}"))
  = errors_New "API returned unexpected status code: 500".
Proof. reflexivity. Qed.

Example Unmarshal_folded_names :
  Unmarshal (bytes_of_string
               (q " { 'Error' : { 'MESSAGE' : 'a\u0062c', 'extra' : [1, 2.5e3, null], 'Type' : 't' } } "))
  = Some {| Error := {| Message := "abc"; Type' := "t" |} |}.
Proof. reflexivity. Qed.

(** ** The transport *)

Example New_direct_client :
  New "sk-test" "claude-3-haiku-20240307" "" [WithHTTPClient (Some refusing)]
  = (Some direct_client, None).
Proof. reflexivity. Qed.

Lemma set_baseURL_same (c : Client) : set_baseURL (baseURL c) c = c.
Proof. now destruct c. Qed.

Lemma set_anthropicVersion_same (c : Client) :
  set_anthropicVersion (anthropicVersion c) c = c.
Proof. now destruct c. Qed.

Lemma defaulted_cases (c : Client) :
  defaulted c = c \/
  (vertexProjectID c = "" /\ baseURL c = "" /\
   defaulted c = set_baseURL DefaultBaseURL c).
Proof.
  unfold defaulted.
  destruct (String.eqb_spec (vertexProjectID c) ""),
           (String.eqb_spec (baseURL c) ""); simpl; auto.
Qed.

Lemma defaulted_idem (c : Client) : defaulted (defaulted c) = defaulted c.
Proof.
  unfold defaulted.
  destruct (String.eqb (vertexProjectID c) "") eqn:Hv,
           (String.eqb (baseURL c) "") eqn:Hb; simpl;
    rewrite ?Hv, ?Hb; reflexivity.
Qed.

Lemma do_url_run (path : string) (s : state) :
  do_url path s
  = (Returns (target (this s) path),
     {| this := defaulted (this s); wire := wire s |}).
Proof.
  destruct s as [c w].
  unfold do_url, target, defaulted, mbind, M_bind, mret, M_ret, receiver, assign.
  cbn.
  destruct (String.eqb (vertexProjectID c) ""); cbn; [| reflexivity].
  destruct (String.eqb (baseURL c) ""); reflexivity.
Qed.

Lemma do_run (url_Parse : string -> option error) (path : string)
    (payloadBytes : bytes) (s : state) :
  do url_Parse path payloadBytes s
  = match url_Parse (target (this s) path) with
    | Some err =>
        (Returns (None, Some (Errorf_w "create request" err)),
         {| this := defaulted (this s); wire := wire s |})
    | None =>
        match httpClient (this s) with
        | None => (Panics, {| this := defaulted (this s); wire := wire s |})
        | Some doer =>
            (Returns
               match doer (wire s) (request_of (this s) path payloadBytes) with
               | (_, Some err) => (None, Some (Errorf_w "send request" err))
               | (resp, None) => (resp, None)
               end,
             {| this := defaulted (this s);
                wire := wire s ++ [request_of (this s) path payloadBytes] |})
        end
    end.
Proof.
  unfold do. unfold mbind at 1. unfold M_bind at 1. rewrite do_url_run.
  unfold http.NewRequestWithContext, request_of.
  destruct (url_Parse (target (this s) path)); [reflexivity |].
  unfold mbind, M_bind, receiver, httpClient_Do, mret, M_ret. cbn.
  assert (httpClient (defaulted (this s)) = httpClient (this s)) as ->.
  { unfold defaulted. now destruct (_ && _). }
  destruct (httpClient (this s)) as [doer |]; [| reflexivity].
  destruct (doer _ _) as [resp [err |]]; reflexivity.
Qed.

Lemma do_receiver (url_Parse : string -> option error) (path : string)
    (payloadBytes : bytes) (s : state) :
  this (snd (do url_Parse path payloadBytes s)) = defaulted (this s).
Proof.
  rewrite do_run.
  destruct (url_Parse _); [reflexivity |].
  now destruct (httpClient (this s)).
Qed.

Lemma do_each_receiver (url_Parse : string -> option error)
    (calls : list (string * bytes)) (s : state) :
  this (snd (do_each url_Parse calls s)) = this s \/
  this (snd (do_each url_Parse calls s)) = defaulted (this s).
Proof.
  revert s. induction calls as [| [path payloadBytes] calls IH]; intros s.
  - now left.
  - right. cbn. unfold mbind, M_bind.
    pose proof (do_receiver url_Parse path payloadBytes s) as Hfirst.
    destruct (do url_Parse path payloadBytes s) as [[r |] s1]; cbn in *.
    + destruct (IH s1) as [-> | ->]; rewrite Hfirst;
        [reflexivity | apply defaulted_idem].
    + exact Hfirst.
Qed.

(** C2, as the code has it: whatever calls of [do] are made, the client they
    leave is the client they found, or that client with its empty [baseURL]
    replaced by [DefaultBaseURL], which happens only when [vertexProjectID]
    and [baseURL] are both empty.  No other field is ever written, and a
    client with a [baseURL] or a [vertexProjectID] is never written at all. *)
Theorem do_writes_only_default_baseURL (url_Parse : string -> option error)
    (calls : list (string * bytes)) (c : Client) (w : list http.Request) :
  let c' := this (snd (do_each url_Parse calls {| this := c; wire := w |})) in
  (c' = c \/
   (vertexProjectID c = "" /\ baseURL c = "" /\
    c' = set_baseURL DefaultBaseURL c)) /\
  (baseURL c <> "" \/ vertexProjectID c <> "" -> c' = c).
Proof.
  cbn zeta.
  assert (this (snd (do_each url_Parse calls {| this := c; wire := w |})) = c \/
          (vertexProjectID c = "" /\ baseURL c = "" /\
           this (snd (do_each url_Parse calls {| this := c; wire := w |}))
           = set_baseURL DefaultBaseURL c)) as Hcases.
  { destruct (do_each_receiver url_Parse calls {| this := c; wire := w |})
      as [-> | ->]; cbn; [now left |].
    apply defaulted_cases. }
  split; [exact Hcases |].
  intros Hset. destruct Hcases as [? | (Hv & Hb & _)]; [assumption |].
  destruct Hset; contradiction.
Qed.

(** C2, as the spec words it, fails: the first call of [do] on a client that
    [New] made without a base URL stores [DefaultBaseURL] in it. *)
Lemma do_stores_default_baseURL :
  ~ (forall (url_Parse : string -> option error) (calls : list (string * bytes))
       (c : Client) (w : list http.Request),
       this (snd (do_each url_Parse calls {| this := c; wire := w |})) = c).
Proof.
  intros Hclaim.
  specialize (Hclaim any_url [("/messages", [])] direct_client []).
  apply (f_equal baseURL) in Hclaim.
  vm_compute in Hclaim. discriminate Hclaim.
Qed.




Example do_vertex_request :
  http.URL <$> wire (snd (do any_url "/messages" []
                            {| this := vertex_client; wire := [] |}))
  = ["https://us-central1-aiplatform.googleapis.com/v1/projects/my-project/locations/us-central1/publishers/anthropic/models/claude-3-haiku@20240307:streamRawPredict"].
Proof. reflexivity. Qed.

Example do_direct_request :
  http.URL <$> wire (snd (do any_url "/messages" []
                            {| this := direct_client; wire := [] |}))
  = ["https://api.anthropic.com/v1/messages"].
Proof. reflexivity. Qed.

(** ** Headers *)

Lemma Get_Set (h : http.MIMEHeader) (key value : string) :
  http.Get (http.Set_ h key value) key = value.
Proof. unfold http.Get, http.Set_. now rewrite lookup_insert_eq. Qed.

Lemma Get_Set_other (h : http.MIMEHeader) (key key' value : string) :
  http.CanonicalMIMEHeaderKey key <> http.CanonicalMIMEHeaderKey key' ->
  http.Get (http.Set_ h key value) key' = http.Get h key'.
Proof.
  intros Hne. unfold http.Get, http.Set_. now rewrite lookup_insert_ne.
Qed.

Lemma lookup_Set_other (h : http.MIMEHeader) (key value k : string) :
  http.CanonicalMIMEHeaderKey key <> k ->
  http.Set_ h key value !! k = h !! k.
Proof. intros Hne. unfold http.Set_. now rewrite lookup_insert_ne. Qed.

Example canonical_keys :
  http.CanonicalMIMEHeaderKey <$>
    ["Content-Type"; "Authorization"; "x-api-key"; "anthropic-version"]
  = ["Content-Type"; "Authorization"; "X-Api-Key"; "Anthropic-Version"].
Proof. reflexivity. Qed.

(** C4: [setHeaders] sets [Content-Type] to [application/json] on every
    request; it sets [Authorization] to [Bearer <token>] when
    [vertexProjectID] is not empty and [x-api-key] to the token otherwise; it
    sets [anthropic-version] to [anthropicVersion] when that is not empty,
    otherwise to [vertex-2023-10-16] when [vertexProjectID] is not empty,
    otherwise to [2023-06-01]. *)
Theorem setHeaders_policy (c : Client) (req : http.Request) :
  let h := http.Header (setHeaders c req) in
  http.Get h "Content-Type" = "application/json" /\
  (vertexProjectID c <> "" ->
   http.Get h "Authorization" = "Bearer " +:+ token c) /\
  (vertexProjectID c = "" -> http.Get h "x-api-key" = token c) /\
  (anthropicVersion c <> "" ->
   http.Get h "anthropic-version" = anthropicVersion c) /\
  (anthropicVersion c = "" -> vertexProjectID c <> "" ->
   http.Get h "anthropic-version" = "vertex-2023-10-16") /\
  (anthropicVersion c = "" -> vertexProjectID c = "" ->
   http.Get h "anthropic-version" = "2023-06-01").
Proof.
  unfold setHeaders. cbn.
  destruct (String.eqb_spec (vertexProjectID c) "") as [Hv | Hv],
           (String.eqb_spec (anthropicVersion c) "") as [Ha | Ha]; cbn;
    repeat split; intros; try contradiction;
    repeat first [ apply Get_Set | rewrite Get_Set_other by discriminate ].
Qed.

Lemma setHeaders_policy_witness :
  let direct := http.Header (setHeaders direct_client
                            (request_of direct_client "/messages" [])) in
  let vertex := http.Header (setHeaders vertex_client
                            (request_of vertex_client "/messages" [])) in
  http.Get direct "Content-Type" = "application/json" /\
  http.Get direct "x-api-key" = "sk-test" /\
  http.Get direct "anthropic-version" = "2023-06-01" /\
  http.Get vertex "Authorization" = "Bearer ya29.test" /\
  http.Get vertex "anthropic-version" = "vertex-2023-10-16".
Proof.
  pose proof (setHeaders_policy direct_client
                (request_of direct_client "/messages" [])) as (Hct & _ & Hkey & _ & _ & Hver).
  pose proof (setHeaders_policy vertex_client
                (request_of vertex_client "/messages" [])) as (_ & Hauth & _ & _ & Hvertex & _).
  exact (conj Hct
           (conj (Hkey eq_refl)
              (conj (Hver eq_refl eq_refl)
                 (conj (Hauth ltac:(discriminate))
                    (Hvertex eq_refl ltac:(discriminate)))))).
Defined.

Lemma target_anthropicVersion (c : Client) (version path : string) :
  target (set_anthropicVersion version c) path = target c path.
Proof.
  unfold target, defaulted. cbn.
  now destruct (String.eqb (vertexProjectID c) ""), (String.eqb (baseURL c) "").
Qed.

(** C9: two clients that differ in [anthropicVersion] only compute the same
    URL in [do] for the same path and payload, send to that same URL, and get
    from [setHeaders] requests that agree on the method, the URL, the body and
    every header other than [Anthropic-Version]. *)
Theorem anthropicVersion_changes_version_header_only
    (url_Parse : string -> option error) (c : Client) (version path : string)
    (payloadBytes : bytes) (w : list http.Request) :
  let c' := set_anthropicVersion version c in
  fst (do_url path {| this := c'; wire := w |})
  = fst (do_url path {| this := c; wire := w |}) /\
  http.URL <$> wire (snd (do url_Parse path payloadBytes {| this := c'; wire := w |}))
  = http.URL <$> wire (snd (do url_Parse path payloadBytes {| this := c; wire := w |})) /\
  (forall req : http.Request,
     http.Method (setHeaders c' req) = http.Method (setHeaders c req) /\
     http.URL (setHeaders c' req) = http.URL (setHeaders c req) /\
     http.Body (setHeaders c' req) = http.Body (setHeaders c req) /\
     forall key : string,
       key <> "Anthropic-Version" ->
       http.Header (setHeaders c' req) !! key = http.Header (setHeaders c req) !! key).
Proof.
  cbn zeta. split; [| split].
  - rewrite !do_url_run. cbn. now rewrite target_anthropicVersion.
  - rewrite !do_run. cbn. rewrite target_anthropicVersion.
    destruct (url_Parse _); [reflexivity |].
    destruct (httpClient c); [| reflexivity].
    cbn. rewrite !fmap_app. cbn.
    now rewrite target_anthropicVersion.
  - intros req. repeat split.
    intros key Hkey. unfold setHeaders. cbn.
    destruct (String.eqb (vertexProjectID c) ""),
             (String.eqb (anthropicVersion c) ""),
             (String.eqb version ""); cbn;
      now rewrite !(lookup_Set_other _ "anthropic-version") by (intros <-; now apply Hkey).
Qed.

(** ** Tools and tool choices *)

Section ToolProperties.
Context `{GoTypes}.
Variable createMessage :
  messagePayload.t -> M (option MessageResponsePayload * option error).

Lemma handleTools_from_nil_function (resultTools : list Tool.t)
    (tools : list llms.Tool) :
  Exists (λ tool, llms.Function tool = None) tools ->
  handleTools_from resultTools tools
  = ([], Some (errors_New "tool choice function is nil")).
Proof.
  intros Hnil. revert resultTools.
  induction Hnil as [tool tools Hf | tool tools _ IH]; intros resultTools; cbn.
  - now rewrite Hf.
  - destruct (llms.Function tool); [apply IH | reflexivity].
Qed.

Lemma handleTools_from_all_functions (resultTools : list Tool.t)
    (tools : list llms.Tool) :
  Forall (λ tool, llms.Function tool <> None) tools ->
  exists translated : list Tool.t,
    handleTools_from resultTools tools = (resultTools ++ translated, None) /\
    List.length translated = List.length tools.
Proof.
  intros Hall. revert resultTools.
  induction Hall as [| tool tools Hf _ IH]; intros resultTools; cbn.
  - exists []. now rewrite app_nil_r.
  - destruct (llms.Function tool) as [f |]; [| contradiction].
    destruct (IH (resultTools ++ [{| Tool.Name := llms.Name f;
                                     Tool.Description := llms.Description f;
                                     Tool.InputSchema := llms.Parameters f |}]))
      as (translated & -> & Hlen).
    eexists (_ :: translated). rewrite <- app_assoc. cbn. auto.
Qed.


(** C7: when some entry of [Tools] has a nil [Function], [CreateMessage]
    answers a nil result and an error that is not nil, and leaves the state
    as it found it: no request is handed to the transport, whatever
    [createMessage] would have done. *)
Theorem CreateMessage_tool_without_function (r : MessageRequest.t) (s : state) :
  Exists (λ tool, llms.Function tool = None) (MessageRequest.Tools r) ->
  exists err : error,
    CreateMessage createMessage r s = (Returns (None, Some err), s).
Proof.
  intros Hnil. unfold CreateMessage.
  destruct (handleToolChoice (MessageRequest.ToolChoice r)) as [tc [err |]].
  - now exists err.
  - unfold handleTools. rewrite (handleTools_from_nil_function [] _ Hnil).
    now eexists.
Qed.

(** C8: for a tool choice that is a tool whose [Function] is nil,
    [handleToolChoice] answers an error and [CreateMessage] answers that
    error with a nil result before anything is sent; for a string it answers
    a tool choice whose type is the string; for a tool with a function it
    answers the tool's type and the function's name. *)
Theorem handleToolChoice_cases :
  (forall tool : llms.Tool,
     llms.Function tool = None ->
     exists err : error,
       handleToolChoice (any_Tool tool) = (None, Some err) /\
       forall (r : MessageRequest.t) (s : state),
         MessageRequest.ToolChoice r = any_Tool tool ->
         CreateMessage createMessage r s = (Returns (None, Some err), s)) /\
  (forall s : string,
     handleToolChoice (any_string s)
     = (Some {| ToolChoice.Type' := s; ToolChoice.Name := "" |}, None)) /\
  (forall (tool : llms.Tool) (f : llms.FunctionDefinition),
     llms.Function tool = Some f ->
     handleToolChoice (any_Tool tool)
     = (Some {| ToolChoice.Type' := llms.Type' tool;
                ToolChoice.Name := llms.Name f |}, None)).
Proof.
  split; [| split].
  - intros tool Hf. exists (errors_New "tool choice function is nil").
    split; [cbn; now rewrite Hf |].
    intros r s Hchoice. unfold CreateMessage. rewrite Hchoice. cbn.
    now rewrite Hf.
  - reflexivity.
  - intros tool f Hf. cbn. now rewrite Hf.
Qed.

(** C10: for a tool choice that is neither a string nor a tool (nil, a
    pointer to a tool, a value of another type) [handleToolChoice] answers nil
    and no error; [CreateMessage] then goes on: when the tools translate, its
    outcome is that of [createMessage] on a payload whose [ToolChoice] is
    nil, for which no [tool_choice] member is written. *)
Theorem handleToolChoice_other_types (toolChoice : any) :
  (forall s : string, toolChoice <> any_string s) ->
  (forall tool : llms.Tool, toolChoice <> any_Tool tool) ->
  handleToolChoice toolChoice = (None, None) /\
  forall (r : MessageRequest.t) (tools : list Tool.t) (s : state),
    MessageRequest.ToolChoice r = toolChoice ->
    handleTools (MessageRequest.Tools r) = (tools, None) ->
    messagePayload.ToolChoice (payload_of r tools None) = None /\
    messagePayload.writes_tool_choice (payload_of r tools None) = false /\
    CreateMessage createMessage r s
    = match createMessage (payload_of r tools None) s with
      | (Returns (_, Some err), s') => (Returns (None, Some err), s')
      | (Returns (resp, None), s') => (Returns (resp, None), s')
      | (Panics, s') => (Panics, s')
      end.
Proof.
  intros Hstring Htool.
  assert (handleToolChoice toolChoice = (None, None)) as Hchoice.
  { destruct toolChoice as [| s | tool | p | v]; try reflexivity.
    - now destruct (Hstring s).
    - now destruct (Htool tool). }
  split; [exact Hchoice |].
  intros r tools s Hr Htools. split; [reflexivity |]. split; [reflexivity |].
  unfold CreateMessage. rewrite Hr, Hchoice, Htools.
  unfold mbind, M_bind, mret, M_ret.
  destruct (createMessage (payload_of r tools None) s) as [[[resp [err |]] |] s'];
    reflexivity.
Qed.

End ToolProperties.

Lemma CreateMessage_tool_without_function_witness :
  exists err : error,
    CreateMessage sending (request [weather; hollow] (any_string "auto"))
      {| this := direct_client; wire := [] |}
    = (Returns (None, Some err), {| this := direct_client; wire := [] |}).
Proof.
  apply (CreateMessage_tool_without_function sending
           (request [weather; hollow] (any_string "auto"))
           {| this := direct_client; wire := [] |}).
  apply Exists_cons_tl, Exists_cons_hd. reflexivity.
Defined.

(** With tools that all have a function the same request is sent. *)
Example CreateMessage_sends :
  wire (snd (CreateMessage sending (request [weather] (any_string "auto"))
               {| this := direct_client; wire := [] |}))
  = [request_of direct_client "/messages" []].
Proof. reflexivity. Qed.

Lemma handleToolChoice_cases_witness :
  exists err : error,
    handleToolChoice (any_Tool hollow) = (None, Some err) /\
    forall (r : MessageRequest.t) (s : state),
      MessageRequest.ToolChoice r = any_Tool hollow ->
      CreateMessage sending r s = (Returns (None, Some err), s).
Proof.
  exact (proj1 (handleToolChoice_cases sending) hollow eq_refl).
Defined.

Lemma handleToolChoice_other_types_witness :
  handleToolChoice (any_ptr_Tool (Some weather)) = (None, None) /\
  forall (r : MessageRequest.t) (tools : list Tool.t) (s : state),
    MessageRequest.ToolChoice r = any_ptr_Tool (Some weather) ->
    handleTools (MessageRequest.Tools r) = (tools, None) ->
    messagePayload.ToolChoice (payload_of r tools None) = None /\
    messagePayload.writes_tool_choice (payload_of r tools None) = false /\
    CreateMessage sending r s
    = match sending (payload_of r tools None) s with
      | (Returns (_, Some err), s') => (Returns (None, Some err), s')
      | (Returns (resp, None), s') => (Returns (resp, None), s')
      | (Panics, s') => (Panics, s')
      end.
Proof.
  apply (handleToolChoice_other_types sending (any_ptr_Tool (Some weather)));
    discriminate.
Defined.

(** A pointer to a tool is not a tool: the request goes out without a tool
    choice even when the tool pointed to has no function. *)
Example CreateMessage_pointer_choice :
  wire (snd (CreateMessage sending (request [weather] (any_ptr_Tool (Some hollow)))
               {| this := direct_client; wire := [] |}))
  = [request_of direct_client "/messages" []].
Proof. reflexivity. Qed.

(** * Further properties *)

(** ** [decodeError] beyond the envelope *)

(** X1: whatever the response, the text of the error that [decodeError]
    answers begins with [API returned unexpected status code: <code>]: as
    the whole text of the plain error, as the context of a wrapped read
    failure, and as the head of the [Message] that [LLMError.Error] gives. *)
Theorem decodeError_text_begins (resp : http.Response) :
  exists rest : string,
    error_text (decodeError resp)
    = "API returned unexpected status code: "
      +:+ fmt_d (http.StatusCode resp) +:+ rest.
Proof.
  unfold decodeError.
  destruct (http.ReadAll (http.RespBody resp)) as [respBody [err |]].
  - exists (": " +:+ error_text err). reflexivity.
  - destruct (Unmarshal respBody) as [errResp |].
    + exists (": " +:+ Message (Error errResp)). reflexivity.
    + exists "". cbn [error_text]. now rewrite append_empty.
Qed.

(** X2: when reading the body fails, [decodeError] answers the read error
    wrapped under the status message, whatever bytes were read before the
    failure: [errors.Unwrap] gives the read error back, the text is the
    status message, a colon and the text of the read error, and the answer is
    no [*llms.LLMError]. *)
Theorem decodeError_unreadable_body (resp : http.Response) (body : bytes)
    (err : error) :
  http.ReadAll (http.RespBody resp) = (body, Some err) ->
  Unwrap (decodeError resp) = Some err /\
  error_text (decodeError resp)
  = "API returned unexpected status code: " +:+ fmt_d (http.StatusCode resp)
    +:+ ": " +:+ error_text err /\
  (forall e : llms.LLMError, decodeError resp <> LLMError_ptr e).
Proof.
  intros Hread. rewrite (decodeError_read_failure resp body err Hread).
  repeat split. discriminate.
Qed.

Lemma decodeError_unreadable_body_witness :
  Unwrap (decodeError (unreadable 502)) = Some (errors_New "unexpected EOF") /\
  error_text (decodeError (unreadable 502))
  = "API returned unexpected status code: 502: unexpected EOF" /\
  (forall e : llms.LLMError, decodeError (unreadable 502) <> LLMError_ptr e).
Proof.
  exact (decodeError_unreadable_body (unreadable 502) (bytes_of_string "{")
           (errors_New "unexpected EOF") eq_refl).
Defined.

(** X3: a body that is JSON, but a string, a number, a boolean or an array
    rather than an object, makes [Unmarshal] fail on the type, and
    [decodeError] answers the plain error with the status message only. *)
Theorem decodeError_json_not_object (resp : http.Response) (body : bytes)
    (v : json.value) :
  http.ReadAll (http.RespBody resp) = (body, None) ->
  json.parse body = Some v ->
  match v with json.Object _ | json.Null => False | _ => True end ->
  decodeError resp
  = errors_New ("API returned unexpected status code: "
                +:+ fmt_d (http.StatusCode resp)).
Proof.
  intros Hread Hparse Hshape.
  apply (decodeError_Unmarshal_failure resp body Hread).
  unfold Unmarshal. rewrite Hparse.
  destruct v; solve [reflexivity | contradiction].
Qed.

Lemma decodeError_json_not_object_witness :
  decodeError (response 503 (q "'Service Unavailable'"))
  = errors_New "API returned unexpected status code: 503".
Proof.
  exact (decodeError_json_not_object (response 503 (q "'Service Unavailable'"))
           (bytes_of_string (q "'Service Unavailable'"))
           (json.Str "Service Unavailable") eq_refl eq_refl I).
Defined.

Lemma object_errorMessage_no_error (ms : list (string * json.value))
    (dst : errorMessage) :
  Forall (λ member, json.names "error" (fst member) = false) ms ->
  object_errorMessage ms dst = Some dst.
Proof.
  induction 1 as [| [k v] ms Hk _ IH]; [reflexivity |].
  cbn in *. now rewrite Hk.
Qed.

(** X4: a body that is [null], or an object none of whose members is named
    [error] (in any letter case), is accepted by [Unmarshal] and leaves the
    envelope empty: [decodeError] answers an [*llms.LLMError] with the status
    code and the raw body, an empty [ErrorType], an empty [ErrorMessage], and
    a [Message] that ends after the colon. *)
Theorem decodeError_without_error_member (resp : http.Response) (body : bytes) :
  http.ReadAll (http.RespBody resp) = (body, None) ->
  json.parse body = Some json.Null \/
  (exists ms : list (string * json.value),
     json.parse body = Some (json.Object ms) /\
     Forall (λ member, json.names "error" (fst member) = false) ms) ->
  decodeError resp
  = LLMError_ptr
      {| llms.Message := "API returned unexpected status code: "
                         +:+ fmt_d (http.StatusCode resp) +:+ ": ";
         llms.StatusCode := http.StatusCode resp;
         llms.ErrorType := "";
         llms.ErrorMessage := "";
         llms.RawResponse := body |}.
Proof.
  intros Hread Hshape.
  apply (decodeError_decoded resp body errorMessage_zero Hread).
  unfold Unmarshal.
  destruct Hshape as [-> | (ms & -> & Hms)]; [reflexivity |].
  now apply object_errorMessage_no_error.
Qed.

Lemma decodeError_without_error_member_witness :
  decodeError (response 404 (q "{'detail':'not found'}"))
  = LLMError_ptr
      {| llms.Message := "API returned unexpected status code: 404: ";
         llms.StatusCode := 404;
         llms.ErrorType := "";
         llms.ErrorMessage := "";
         llms.RawResponse := bytes_of_string (q "{'detail':'not found'}") |}.
Proof.
  apply (decodeError_without_error_member
           (response 404 (q "{'detail':'not found'}"))
           (bytes_of_string (q "{'detail':'not found'}")) eq_refl).
  right. exists [("detail", json.Str "not found")]. split; [reflexivity |].
  repeat constructor.
Defined.

(** X6: members are found by name, not by place: an object that has a
    [type] member of its own before [error], and that lists the type before
    the message inside [error], gives the same structured error: the outer
    [type] is ignored. *)
Theorem decodeError_typed_envelope (resp : http.Response) (body : bytes)
    (kind type message : string) :
  http.ReadAll (http.RespBody resp) = (body, None) ->
  json.parse body
  = Some (json.Object
            [("type", json.Str kind);
             ("error", json.Object [("type", json.Str type);
                                    ("message", json.Str message)])]) ->
  decodeError resp
  = LLMError_ptr
      {| llms.Message := "API returned unexpected status code: "
                         +:+ fmt_d (http.StatusCode resp) +:+ ": " +:+ message;
         llms.StatusCode := http.StatusCode resp;
         llms.ErrorType := type;
         llms.ErrorMessage := message;
         llms.RawResponse := body |}.
Proof.
  intros Hread Hparse.
  apply (decodeError_decoded resp body
           {| Error := {| Message := message; Type' := type |} |} Hread).
  unfold Unmarshal. now rewrite Hparse.
Qed.

Lemma decodeError_typed_envelope_witness :
  decodeError
    (response 529
       (q "{'type':'error','error':{'type':'overloaded_error','message':'Overloaded'}}"))
  = LLMError_ptr
      {| llms.Message := "API returned unexpected status code: 529: Overloaded";
         llms.StatusCode := 529;
         llms.ErrorType := "overloaded_error";
         llms.ErrorMessage := "Overloaded";
         llms.RawResponse :=
           bytes_of_string
             (q "{'type':'error','error':{'type':'overloaded_error','message':'Overloaded'}}") |}.
Proof.
  exact (decodeError_typed_envelope
           (response 529
              (q "{'type':'error','error':{'type':'overloaded_error','message':'Overloaded'}}"))
           _ "error" "overloaded_error" "Overloaded" eq_refl eq_refl).
Defined.

Lemma decodeError_envelope_witness :
  decodeError (response 400 (envelope "max_tokens: field required"
                               "invalid_request_error"))
  = LLMError_ptr
      {| llms.Message :=
           "API returned unexpected status code: 400: max_tokens: field required";
         llms.StatusCode := 400;
         llms.ErrorType := "invalid_request_error";
         llms.ErrorMessage := "max_tokens: field required";
         llms.RawResponse :=
           bytes_of_string (envelope "max_tokens: field required"
                              "invalid_request_error") |}.
Proof.
  exact (decodeError_envelope 400 "max_tokens: field required"
           "invalid_request_error" eq_refl eq_refl).
Defined.

(** ** [do] in direct mode, its request and its outcomes *)



Lemma defaulted_fields (c : Client) :
  token (defaulted c) = token c /\
  vertexProjectID (defaulted c) = vertexProjectID c /\
  anthropicVersion (defaulted c) = anthropicVersion c /\
  httpClient (defaulted c) = httpClient c.
Proof. unfold defaulted. now destruct (_ && _). Qed.

(** X8: a request that [do] hands to the transport is a POST of the payload
    bytes with exactly three headers: [Content-Type], [Anthropic-Version],
    and one credential, [X-Api-Key] without a [vertexProjectID] and
    [Authorization] with one, never both. *)
Theorem do_request_shape (url_Parse : string -> option error) (c : Client)
    (w : list http.Request) (path : string) (payloadBytes : bytes)
    (req : http.Request) :
  wire (snd (do url_Parse path payloadBytes {| this := c; wire := w |}))
  = w ++ [req] ->
  http.Method req = "POST" /\
  http.Body req = payloadBytes /\
  http.Header req
  = <["Anthropic-Version" :=
        [if negb (String.eqb (anthropicVersion c) "") then anthropicVersion c
         else if negb (String.eqb (vertexProjectID c) "")
              then "vertex-2023-10-16" else "2023-06-01"]]>
      (<[(if negb (String.eqb (vertexProjectID c) "")
          then "Authorization" else "X-Api-Key") :=
           [if negb (String.eqb (vertexProjectID c) "")
            then "Bearer " +:+ token c else token c]]>
         {["Content-Type" := ["application/json"]]}).
Proof.
  rewrite do_run. cbn.
  destruct (url_Parse _).
  { cbn. intros Hw. apply (f_equal List.length) in Hw.
    rewrite length_app in Hw. cbn in Hw. lia. }
  destruct (httpClient c).
  2:{ cbn. intros Hw. apply (f_equal List.length) in Hw.
      rewrite length_app in Hw. cbn in Hw. lia. }
  cbn. intros Hw. apply app_inv_head in Hw. injection Hw as <-.
  unfold request_of, setHeaders. cbn.
  destruct (defaulted_fields c) as (-> & -> & -> & _).
  repeat split.
  destruct (String.eqb (vertexProjectID c) ""),
           (String.eqb (anthropicVersion c) ""); reflexivity.
Qed.

Lemma do_request_shape_witness :
  http.Method (request_of vertex_client "/messages" []) = "POST" /\
  http.Body (request_of vertex_client "/messages" []) = [] /\
  http.Header (request_of vertex_client "/messages" [])
  = <["Anthropic-Version" := ["vertex-2023-10-16"]]>
      (<["Authorization" := ["Bearer ya29.test"]]>
         {["Content-Type" := ["application/json"]]}).
Proof.
  exact (do_request_shape any_url vertex_client [] "/messages" []
           (request_of vertex_client "/messages" []) eq_refl).
Defined.



(** X10: [do] never answers a response together with an error: when the
    transport answers an error, the response it may have answered with it is
    dropped and the error comes back wrapped as [send request: ...]. *)
Theorem do_response_or_error (url_Parse : string -> option error)
    (path : string) (payloadBytes : bytes) (s : state) :
  match fst (do url_Parse path payloadBytes s) with
  | Returns (Some _, Some _) => False
  | Returns (None, Some err) =>
      exists cause : error,
        err = Errorf_w "create request" cause \/
        err = Errorf_w "send request" cause
  | _ => True
  end.
Proof.
  rewrite do_run.
  destruct (url_Parse _) as [cause |]; cbn; [eauto |].
  destruct (httpClient (this s)) as [doer |]; cbn; [| exact I].
  destruct (doer _ _) as [[resp |] [cause |]]; cbn; eauto.
Qed.

(** X11: calls of [do] only append to the wire: what was sent stays in
    place, and each call adds at most one request. *)
Theorem do_each_appends (url_Parse : string -> option error)
    (calls : list (string * bytes)) (s : state) :
  exists sent : list http.Request,
    wire (snd (do_each url_Parse calls s)) = wire s ++ sent /\
    List.length sent <= List.length calls.
Proof.
  revert s. induction calls as [| [path payloadBytes] calls IH]; intros s.
  - exists []. cbn. rewrite app_nil_r. split; [reflexivity | lia].
  - cbn [do_each]. unfold mbind, M_bind.
    assert (exists first : list http.Request,
              wire (snd (do url_Parse path payloadBytes s)) = wire s ++ first /\
              List.length first <= 1) as (first & Hfirst & Hlen).
    { rewrite do_run.
      destruct (url_Parse _);
        [exists []; cbn; rewrite app_nil_r; split; [reflexivity | lia] |].
      destruct (httpClient (this s));
        [eexists [_] | exists []; cbn; rewrite app_nil_r];
        cbn; split; solve [reflexivity | lia]. }
    destruct (do url_Parse path payloadBytes s) as [[r |] s1]; cbn in *.
    + destruct (IH s1) as (sent & -> & Hsent).
      exists (first ++ sent). rewrite Hfirst, app_assoc, length_app.
      split; [reflexivity | lia].
    + exists first. split; [assumption | lia].
Qed.



(** ** [setHeaders] on any request *)

(** X13: [setHeaders] replaces and never adds: whatever values a request had
    under the keys it writes are dropped for the single new value, so
    applying it twice gives what applying it once gives. *)
Theorem setHeaders_idempotent (c : Client) (req : http.Request) :
  setHeaders c (setHeaders c req) = setHeaders c req.
Proof.
  unfold setHeaders, http.Set_. cbn.
  destruct (String.eqb (vertexProjectID c) ""),
           (String.eqb (anthropicVersion c) ""); cbn; f_equal;
    apply map_eq; intros k; rewrite !lookup_insert;
    repeat case_decide; congruence.
Qed.

(** X14: [setHeaders] writes three keys and leaves every other header of the
    request as it was.  In particular it does not remove the credential of the
    other mode: an [Authorization] header already on the request stays there
    without a [vertexProjectID], and an [X-Api-Key] header stays there with
    one. *)
Theorem setHeaders_frame (c : Client) (req : http.Request) (key : string) :
  key <> "Content-Type" ->
  key <> "Anthropic-Version" ->
  key <> (if String.eqb (vertexProjectID c) "" then "X-Api-Key" else "Authorization") ->
  http.Header (setHeaders c req) !! key = http.Header req !! key.
Proof.
  intros Hct Hver Hauth. unfold setHeaders, http.Set_. cbn.
  change (http.CanonicalMIMEHeaderKey "Content-Type") with "Content-Type".
  change (http.CanonicalMIMEHeaderKey "Authorization") with "Authorization".
  change (http.CanonicalMIMEHeaderKey "x-api-key") with "X-Api-Key".
  change (http.CanonicalMIMEHeaderKey "anthropic-version") with "Anthropic-Version".
  destruct (String.eqb (vertexProjectID c) ""),
           (String.eqb (anthropicVersion c) ""); cbn;
    rewrite !lookup_insert_ne; congruence.
Qed.

Lemma setHeaders_frame_witness :
  http.Header
    (setHeaders direct_client
       {| http.Method := "POST"; http.URL := "https://example.test";
          http.Header := {["Authorization" := ["Bearer stale"]]};
          http.Body := [] |}) !! "Authorization"
  = Some ["Bearer stale"].
Proof.
  exact (setHeaders_frame direct_client
           {| http.Method := "POST"; http.URL := "https://example.test";
              http.Header := {["Authorization" := ["Bearer stale"]]};
              http.Body := [] |}
           "Authorization" ltac:(discriminate) ltac:(discriminate)
           ltac:(discriminate)).
Defined.

(** ** [New] and its options *)



Lemma apply_opts_provided (opts : list Option) (c : Client) :
  Forall provided opts ->
  exists c' : Client,
    apply_opts opts c = (Some c', None) /\
    token c' = token c /\ Model c' = Model c /\ baseURL c' = baseURL c.
Proof.
  intros Hopts. revert c.
  induction Hopts as [| opt opts Hopt _ IH]; intros c.
  - now exists c.
  - destruct Hopt; cbn;
      match goal with
      | |- context [apply_opts opts ?c1] =>
          destruct (IH c1) as (c' & -> & Ht & Hm & Hb)
      end;
      exists c'; repeat split; assumption.
Qed.

(** X19: [New] with options that the package provides never fails, and none
    of them touches what [New] was given: the client has the token and the
    model of the call, and the base URL of the call without one trailing
    slash. *)
Theorem New_provided_options (tok model base : string) (opts : list Option) :
  Forall provided opts ->
  exists c : Client,
    New tok model base opts = (Some c, None) /\
    token c = tok /\ Model c = model /\ baseURL c = TrimSuffix base "/".
Proof.
  intros Hopts. unfold New.
  match goal with
  | |- context [apply_opts opts ?c0] =>
      destruct (apply_opts_provided opts c0 Hopts) as (c & -> & Ht & Hm & Hb)
  end.
  exists c. repeat split; assumption.
Qed.

Lemma New_provided_options_witness :
  exists c : Client,
    New "sk-test" "claude-3-haiku@20240307" "https://api.anthropic.com/v1/"
      [WithVertexProjectID "my-project"; WithVertexLocation "us-central1";
       WithAnthropicVersion "vertex-2023-10-16"; WithHTTPClient (Some refusing);
       WithLegacyTextCompletionsAPI false]
    = (Some c, None) /\
    token c = "sk-test" /\ Model c = "claude-3-haiku@20240307" /\
    baseURL c = TrimSuffix "https://api.anthropic.com/v1/" "/".
Proof.
  apply (New_provided_options "sk-test" "claude-3-haiku@20240307"
           "https://api.anthropic.com/v1/").
  repeat constructor.
Defined.





(** ** Translation of tools, and what [CreateMessage] passes on *)

Section Translation.
Context `{GoTypes}.

Lemma translate_Some (tool : llms.Tool) (f : llms.FunctionDefinition) :
  llms.Function tool = Some f ->
  translate tool = Some {| Tool.Name := llms.Name f;
                           Tool.Description := llms.Description f;
                           Tool.InputSchema := llms.Parameters f |}.
Proof. intros Hf. unfold translate. now rewrite Hf. Qed.

Lemma translate_None (tool : llms.Tool) :
  llms.Function tool = None -> translate tool = None.
Proof. intros Hf. unfold translate. now rewrite Hf. Qed.

Lemma handleTools_from_mapM (resultTools : list Tool.t) (tools : list llms.Tool) :
  handleTools_from resultTools tools
  = match mapM translate tools with
    | Some translated => (resultTools ++ translated, None)
    | None => ([], Some (errors_New "tool choice function is nil"))
    end.
Proof.
  revert resultTools. induction tools as [| tool tools IH]; intros resultTools.
  - cbn. now rewrite app_nil_r.
  - change (mapM translate (tool :: tools))
      with (y ← translate tool; k ← mapM translate tools; mret (y :: k)).
    cbn [handleTools_from].
    destruct (llms.Function tool) as [f |] eqn:Hf.
    + rewrite (translate_Some tool f Hf), IH. cbn [mbind option_bind].
      destruct (mapM translate tools); [| reflexivity].
      cbn. now rewrite <- app_assoc.
    + now rewrite (translate_None tool Hf).
Qed.

(** X15: [handleTools] succeeds with a list exactly when that list is the
    tools translated one by one, in order: as many entries as tools, each
    with the name, the description and the parameters of the function of the
    tool at the same place. *)
Theorem handleTools_translates (tools : list llms.Tool) (translated : list Tool.t) :
  handleTools tools = (translated, None) <->
  Forall2 (λ tool t, exists f : llms.FunctionDefinition,
             llms.Function tool = Some f /\
             t = {| Tool.Name := llms.Name f;
                    Tool.Description := llms.Description f;
                    Tool.InputSchema := llms.Parameters f |})
    tools translated.
Proof.
  unfold handleTools. rewrite handleTools_from_mapM.
  assert (forall (tool : llms.Tool) (t : Tool.t),
            translate tool = Some t <->
            exists f : llms.FunctionDefinition,
              llms.Function tool = Some f /\
              t = {| Tool.Name := llms.Name f;
                     Tool.Description := llms.Description f;
                     Tool.InputSchema := llms.Parameters f |}) as Htranslate.
  { intros tool t. unfold translate.
    destruct (llms.Function tool) as [f |]; cbn.
    - split; [intros [= <-]; eauto | intros (f' & [= <-] & ->); reflexivity].
    - split; [discriminate | intros (f' & Hf & _); discriminate Hf]. }
  split.
  - destruct (mapM translate tools) as [l |] eqn:Hmap; [| discriminate].
    intros [= <-]. apply mapM_Some in Hmap.
    eapply Forall2_impl; [exact Hmap |]. intros tool t. apply Htranslate.
  - intros Hall.
    assert (mapM translate tools = Some translated) as ->; [| reflexivity].
    apply mapM_Some. eapply Forall2_impl; [exact Hall |].
    intros tool t. apply Htranslate.
Qed.


Variable createMessage :
  messagePayload.t -> M (option MessageResponsePayload * option error).

(** X17: when the tool choice is no tool without a function and every tool
    translates, [CreateMessage] runs [createMessage] once, on the payload that
    copies the request with the translated tools and the translated choice,
    and leaves the state that [createMessage] leaves; it passes the result on
    when there is no error, and answers a nil result with the error
    otherwise. *)
Theorem CreateMessage_passes_on (r : MessageRequest.t) (tools : list Tool.t)
    (s : state) :
  (forall tool : llms.Tool,
     MessageRequest.ToolChoice r = any_Tool tool -> llms.Function tool <> None) ->
  Forall2 (λ tool t, translate tool = Some t) (MessageRequest.Tools r) tools ->
  let payload :=
    payload_of r tools (fst (handleToolChoice (MessageRequest.ToolChoice r))) in
  CreateMessage createMessage r s
  = match createMessage payload s with
    | (Returns (_, Some err), s') => (Returns (None, Some err), s')
    | (Returns (resp, None), s') => (Returns (resp, None), s')
    | (Panics, s') => (Panics, s')
    end.
Proof.
  intros Hchoice Htools payload. subst payload. unfold CreateMessage, handleTools.
  rewrite handleTools_from_mapM. apply mapM_Some in Htools. rewrite Htools.
  assert (snd (handleToolChoice (MessageRequest.ToolChoice r)) = None) as Hok.
  { destruct (MessageRequest.ToolChoice r) as [| str | tool | p | v];
      try reflexivity.
    cbn. specialize (Hchoice tool eq_refl).
    now destruct (llms.Function tool). }
  destruct (handleToolChoice (MessageRequest.ToolChoice r)) as [tc e].
  cbn in Hok. subst e. cbn.
  unfold mbind, M_bind, mret, M_ret.
  destruct (createMessage (payload_of r tools tc) s) as [[[resp [err |]] |] s'];
    reflexivity.
Qed.

(** X18: [CreateMessage] never answers a result together with an error,
    whatever [createMessage] answers. *)
Theorem CreateMessage_result_or_error (r : MessageRequest.t) (s : state) :
  match fst (CreateMessage createMessage r s) with
  | Returns (Some _, Some _) => False
  | _ => True
  end.
Proof.
  unfold CreateMessage.
  destruct (handleToolChoice (MessageRequest.ToolChoice r)) as [tc [e |]];
    [exact I |].
  destruct (handleTools (MessageRequest.Tools r)) as [tools [e |]]; [exact I |].
  unfold mbind, M_bind, mret, M_ret.
  now destruct (createMessage (payload_of r tools tc) s)
    as [[[[resp |] [err |]] |] s'].
Qed.

End Translation.

Lemma CreateMessage_passes_on_witness :
  let r := request [weather] (any_string "auto") in
  let tools := [weather_tool] in
  let s := {| this := direct_client; wire := [] |} in
  CreateMessage sending r s
  = match sending (payload_of r tools (Some {| ToolChoice.Type' := "auto";
                                               ToolChoice.Name := "" |})) s with
    | (Returns (_, Some err), s') => (Returns (None, Some err), s')
    | (Returns (resp, None), s') => (Returns (resp, None), s')
    | (Panics, s') => (Panics, s')
    end.
Proof.
  apply (CreateMessage_passes_on sending (request [weather] (any_string "auto"))
           [weather_tool] {| this := direct_client; wire := [] |}).
  - discriminate.
  - repeat constructor.
Defined.

(** ** The legacy completions API *)

Section CompletionProperties.
Context `{GoTypes}.
Variable createCompletion :
  completionPayload.t -> M (option completionResponsePayload.t * option error).

(** X22: [CreateCompletion] validates nothing: for every request it runs
    [createCompletion] once, on the payload that copies the request, and
    leaves the state that call leaves.  It never answers a completion
    together with an error; a completion it answers holds the text of the
    response, and an error it answers is the one of [createCompletion]. *)
Theorem CreateCompletion_always_calls (r : CompletionRequest.t) (s : state) :
  let called := createCompletion (completionPayload_of r) s in
  snd (CreateCompletion createCompletion r s) = snd called /\
  match fst (CreateCompletion createCompletion r s) with
  | Returns (Some _, Some _) => False
  | Returns (Some completion, None) =>
      exists resp : completionResponsePayload.t,
        fst called = Returns (Some resp, None) /\
        Text completion = completionResponsePayload.Completion resp
  | Returns (None, Some err) =>
      exists resp : option completionResponsePayload.t,
        fst called = Returns (resp, Some err)
  | Returns (None, None) => False
  | Panics => fst called = Panics \/ fst called = Returns (None, None)
  end.
Proof.
  unfold CreateCompletion, mbind, M_bind, mret, M_ret, panic. cbn zeta.
  destruct (createCompletion (completionPayload_of r) s)
    as [[[[resp |] [err |]] |] s']; cbn; eauto.
Qed.

End CompletionProperties.

Example CreateCompletion_text :
  fst (CreateCompletion completing completion_request
         {| this := bare_client; wire := [] |})
  = Returns (Some {| Text := "echo: hello" |}, None).
Proof. reflexivity. Qed.
